(** * Root finding in [Program.py]: a shallow embedding and its properties

    The numerical core of [NumericalMethods] (the bracketing scanner, the
    graphical, incremental, bisection, regula falsi, Newton-Raphson and
    secant methods, [format_number] and [parse_function]) is transcribed
    below as Rocq functions.

    - Python floats and numpy's [float64] are IEEE-754 binary64 numbers, so
      they are modelled by Rocq's primitive floats, whose operations are the
      same binary64 operations: comparisons with NaN are false, [0/0] is
      NaN, and so on.
    - The compiled function [self.function] is a function on floats; on a
      numpy array it is applied to each element.  Its evaluation is taken
      not to raise.
    - Loops over [range(max_iter)] become structural recursion on the number
      of passes that are left; a [for ... else] returns through its [else]
      clause when the passes run out.
    - Python exceptions become an error result.
    - What the methods write to the text widget is left out; what they
      append to [self.roots] and [self.iterations_data] is returned. *)

From Stdlib Require Uint63.
From Stdlib Require Import Ascii String ZArith List Bool Arith Lia Floats.
Import ListNotations.

Set Warnings "-inexact-float".
Local Open Scope float_scope.

(** ** The Python run time: exceptions and numbers *)

Module Py.

(** The exceptions the modelled code can raise. *)
Inductive error : Type :=
| ZeroDivisionError
| UnboundLocalError
| IndexError
| TypeError
| OverflowError
| OtherException (msg : string).

(** A computation that returns a value or raises. *)
Inductive exc (A : Type) : Type :=
| Ok (a : A)
| Raise (e : error).
Arguments Ok {A} a.
Arguments Raise {A} e.

Definition bind {A B} (m : exc A) (k : A -> exc B) : exc B :=
  match m with
  | Ok a => k a
  | Raise e => Raise e
  end.

Definition is_ok {A} (m : exc A) : bool :=
  match m with Ok _ => true | Raise _ => false end.

(** [for v in l: acc = body(acc, v)], stopping at the first exception. *)
Fixpoint for_each {A S} (body : S -> A -> exc S) (l : list A) (acc : S) : exc S :=
  match l with
  | [] => Ok acc
  | v :: l' => bind (body acc v) (for_each body l')
  end.

(** [a / b] on two Python floats: raises when the divisor is zero
    (either signed zero), otherwise the binary64 quotient. *)
Definition truediv (a b : float) : exc float :=
  if b =? 0 then Raise ZeroDivisionError else Ok (a / b).

(** [float(n)] for a small non-negative integer. *)
Definition of_nat (n : nat) : float := of_uint63 (Uint63.of_Z (Z.of_nat n)).

(** [l[i]] for an index that is in range (the default is never reached by
    the loops below, which index inside [range(1, len(x))]). *)
Definition getitem (l : list float) (i : nat) : float := nth i l nan.

End Py.

Import Py.

Notation "x <- m ;; k" := (Py.bind m (fun x => k))
  (at level 61, m at next level, right associativity).

(** ** numpy.linspace *)

Module NumPy.

(** [y[-1] = v] on a non-empty array. *)
Definition set_last (y : list float) (v : float) : list float :=
  removelast y ++ [v].

(** [np.linspace(start, stop, num)] with the default [endpoint=True], as
    numpy computes it: [arange(0, num) * step + start] with
    [step = (stop - start) / (num - 1)], the last sample overwritten by
    [stop]; when [step] is zero the samples are [i / div * delta + start]. *)
Definition linspace (start stop : float) (num : nat) : list float :=
  let div := (num - 1)%nat in
  let delta := stop - start in
  let y := map of_nat (seq 0 num) in
  let y :=
    if (0 <? div)%nat then
      let step := delta / of_nat div in
      if step =? 0 then map (fun v => v / of_nat div * delta) y
      else map (fun v => v * step) y
    else map (fun v => v * delta) y in
  let y := map (fun v => v + start) y in
  if (1 <? num)%nat then set_last y stop else y.

End NumPy.

Import NumPy.

(** ** The bracketing scanner: [find_sign_change_intervals] *)

Module Scanner.

Definition Interval : Type := (float * float)%type.

(** The default of the keyword argument [num_points]. *)
Definition default_num_points : nat := 100.

(** The loop [for i in range(1, len(x))] over given samples [x], [y]. *)
Definition scan (x y : list float) : list Interval :=
  fold_left
    (fun intervals i =>
       if getitem y (i - 1) * getitem y i <=? 0
       then intervals ++ [(getitem x (i - 1), getitem x i)]
       else intervals)
    (seq 1 (length x - 1)) [].

(** [find_sign_change_intervals] for a function of [x], which numpy applies
    to each sample.  A constant expression compiles to a function that
    returns a scalar: [Compiled.find_sign_change_intervals] covers it. *)
Definition find_sign_change_intervals
           (f : float -> float) (x_min x_max : float) (num_points : nat)
  : list Interval :=
  let x := linspace x_min x_max num_points in
  let y := map f x in
  scan x y.

End Scanner.

Import Scanner.

(** ** The graphical method *)

Module Graphical.

(** The interpolated zero crossing between samples [i-1] and [i].  The
    samples are elements of numpy arrays, so the division is numpy's: it
    yields an infinity or NaN on a zero divisor instead of raising. *)
Definition interpolate (x y : list float) (i : nat) : float :=
  getitem x (i - 1)
  - getitem y (i - 1) * (getitem x i - getitem x (i - 1))
    / (getitem y i - getitem y (i - 1)).

(** [graphical_method]: the list [sign_changes], whose elements are then
    appended to [self.roots], each with an empty iteration trace. *)
Definition graphical_method (f : float -> float) (x_min x_max : float)
  : list float :=
  let x := linspace x_min x_max 1000 in
  let y := map f x in
  fold_left
    (fun sign_changes i =>
       if getitem y (i - 1) * getitem y i <=? 0
       then sign_changes ++ [interpolate x y i]
       else sign_changes)
    (seq 1 (length x - 1)) [].

End Graphical.

(** ** The incremental method *)

Module Incremental.

Record row : Type := mk_row {
  Iteration : nat;
  xl : float;
  dx : float;          (* the column "x", which holds [delta_x] *)
  xu : float;
  f_xl : float;
  f_xu : float;
  product : float;
  Remarks : string }.

(** The state of the refinement loop when it is left. *)
Record refined : Type := mk_refined {
  iter_count : nat;
  x_l : float;
  x_r : float;
  iter_data : list row }.

(** [while iter_count < max_iter: ...] of the refinement; [n] is
    [max_iter - iter_count], the number of passes the guard still allows.
    The remark assigned before each of the first three [break]s is never
    recorded (it is overwritten after the loop), and [smaller_step] is never
    read: both are left out. *)
Fixpoint refine_loop (f : float -> float) (tolerance : float)
         (n iter_count : nat) (x_l x_r : float) (iter_data : list row)
  : refined :=
  match n with
  | O => mk_refined iter_count x_l x_r iter_data
  | S n' =>
    let f_xl := f x_l in
    let f_xu := f x_r in
    let delta_x := x_r - x_l in
    let product := f_xl * f_xu in
    if abs f_xl <? tolerance then mk_refined iter_count x_l x_r iter_data
    else if abs f_xu <? tolerance then mk_refined iter_count x_l x_r iter_data
    else if delta_x <? tolerance then mk_refined iter_count x_l x_r iter_data
    else
      let remarks := EmptyString in
      let iter_data :=
        iter_data
        ++ [mk_row iter_count x_l delta_x x_r f_xl f_xu product remarks] in
      let x_mid := (x_l + x_r) / 2 in
      let f_mid := f x_mid in
      let x_r' := if f_xl * f_mid <? 0 then x_mid else x_r in
      let x_l' := if f_xl * f_mid <? 0 then x_l else x_mid in
      let iter_count := S iter_count in
      if (abs f_mid <? tolerance) || (delta_x <? tolerance)
      then mk_refined iter_count x_l' x_r' iter_data
      else refine_loop f tolerance n' iter_count x_l' x_r' iter_data
  end.

(** The refinement of one bracket [[x, next_x]]: the loop, then the final
    record with its remarks; the result is the pair appended to
    [roots_found] and [all_iterations]. *)
Definition refine (f : float -> float) (tolerance : float) (max_iter : nat)
           (x next_x : float) : float * list row :=
  let st := refine_loop f tolerance max_iter 0 x next_x [] in
  let f_xl := f (x_l st) in
  let f_xu := f (x_r st) in
  let delta_x := x_r st - x_l st in
  let product := f_xl * f_xu in
  let '(root, remarks) :=
    if abs f_xl <? tolerance then (x_l st, "Converged at xl"%string)
    else if abs f_xu <? tolerance then (x_r st, "Converged at xu"%string)
    else ((x_l st + x_r st) / 2, "Final approximation"%string) in
  (root,
   iter_data st
   ++ [mk_row (iter_count st) (x_l st) delta_x (x_r st) f_xl f_xu product remarks]).

(** [while x <= x_max: ...]: the walk over the interval.  Nothing bounds the
    number of passes in the source ([step_size] may be zero), so the model
    takes fuel and returns [None] when it runs out. *)
Fixpoint incremental_walk (f : float -> float)
         (x_max step_size tolerance : float) (max_iter : nat)
         (fuel : nat) (x : float) (all_iterations : list (float * list row))
  : option (list (float * list row)) :=
  match fuel with
  | O => None
  | S fuel' =>
    if x <=? x_max then
      let f_x := f x in
      if abs f_x <? tolerance then
        incremental_walk f x_max step_size tolerance max_iter fuel'
                         (x + step_size) (all_iterations ++ [(x, [])])
      else
        let next_x := x + step_size in
        let all_iterations :=
          if next_x <=? x_max then
            let f_next_x := f next_x in
            if f_x * f_next_x <? 0
            then all_iterations ++ [refine f tolerance max_iter x next_x]
            else all_iterations
          else all_iterations in
        incremental_walk f x_max step_size tolerance max_iter fuel'
                         (x + step_size) all_iterations
    else Some all_iterations
  end.

Definition incremental_method (f : float -> float)
           (x_min x_max step_size tolerance : float) (max_iter : nat)
           (fuel : nat) : option (list (float * list row)) :=
  incremental_walk f x_max step_size tolerance max_iter fuel x_min [].

End Incremental.

(** ** The stopping test shared by the bracketing methods *)

Module Convergence.

(** [error]: the percent relative error of [c] against the previous
    approximation, [float('inf')] when there is none. *)
Definition error_of (prev_c : option float) (c : float) : float :=
  match prev_c with
  | Some prev_c =>
    if negb (c =? 0) then abs ((c - prev_c) / c) * 100
    else abs (c - prev_c) * 100
  | None => infinity
  end.

(** [prev_c is not None and error < tolerance]. *)
Definition error_below (prev_c : option float) (error tolerance : float)
  : bool :=
  match prev_c with
  | Some _ => error <? tolerance
  | None => false
  end.

(** The test guarding [break] in bisection and regula falsi. *)
Definition found (f_c : float) (prev_c : option float)
           (error tolerance : float) : bool :=
  (abs f_c <? tolerance) || error_below prev_c error tolerance.

(** How an interval's search ended: by [break] after the test above, or by
    the [else] clause of the [for] loop. *)
Inductive status : Type :=
| Converged
| MaxIterationsReached.

End Convergence.

Import Convergence.

(** ** Bisection *)

Module Bisection.

Record row : Type := mk_row {
  Iteration : nat;
  xl : float;
  xr : float;
  xu : float;
  f_xl : float;
  f_xu : float;
  rel_error : option float;   (* the column "|a|,%"; [None] is "N/A" *)
  product : float;
  Remarks : string }.

Record result : Type := mk_result {
  root : float;
  data : list row;
  how : status }.

Definition remarks_of (f_c : float) (prev_c : option float)
           (error tolerance : float) (i max_iter : nat) : string :=
  if abs f_c <? tolerance then "Converged by function value"
  else if error_below prev_c error tolerance
       then "Converged by error tolerance"
  else if (i =? max_iter - 1)%nat then "Max iterations reached"
  else EmptyString.

(** [for i in range(max_iter): ... else: ...] on one interval; [n] passes
    are left and [i] is the loop index.  [last] is the binding of the local
    variables [c] and [f_c], which the [else] clause reads: they are unbound
    until the first pass has run. *)
Fixpoint bisection_loop (f : float -> float) (tolerance : float)
         (max_iter n i : nat) (a b : float) (prev_c : option float)
         (last : option (float * float)) (iterations_data : list row)
  : exc result :=
  match n with
  | O =>
    match last with
    | Some (c, f_c) => Ok (mk_result c iterations_data MaxIterationsReached)
    | None => Raise UnboundLocalError
    end
  | S n' =>
    let c := (a + b) / 2 in
    let f_a := f a in
    let f_b := f b in
    let f_c := f c in
    let error := error_of prev_c c in
    let remarks := remarks_of f_c prev_c error tolerance i max_iter in
    let iterations_data :=
      iterations_data
      ++ [mk_row i a c b f_a f_b (option_map (fun _ => error) prev_c)
                 (f_a * f_b) remarks] in
    if found f_c prev_c error tolerance
    then Ok (mk_result c iterations_data Converged)
    else
      let prev_c := Some c in
      if f_a * f_c <? 0
      then bisection_loop f tolerance max_iter n' (S i) a c prev_c
                          (Some (c, f_c)) iterations_data
      else bisection_loop f tolerance max_iter n' (S i) c b prev_c
                          (Some (c, f_c)) iterations_data
  end.

(** The body of [for interval_idx, (a, b) in enumerate(intervals)].  The
    locals [c], [f_c] of an earlier interval are never read: with
    [max_iter = 0] the first interval already raises, otherwise the first
    pass rebinds them. *)
Definition bisection_interval (f : float -> float) (tolerance : float)
           (max_iter : nat) (ab : Interval) : exc result :=
  bisection_loop f tolerance max_iter max_iter 0 (fst ab) (snd ab) None None [].

(** [bisection_method]: the list [all_iterations] (whose roots are
    [roots_found]); empty when the scanner finds no interval. *)
Definition bisection_method (f : float -> float) (x_min x_max tolerance : float)
           (max_iter : nat) : exc (list result) :=
  let intervals := find_sign_change_intervals f x_min x_max default_num_points in
  for_each
    (fun all_iterations ab =>
       r <- bisection_interval f tolerance max_iter ab ;;
       Ok (all_iterations ++ [r]))
    intervals [].

End Bisection.

(** ** Regula falsi *)

Module RegulaFalsi.

Record row : Type := mk_row {
  Iteration : nat;
  xl : float;
  xu : float;
  xr : float;
  rel_error : option float;   (* the column "a"; [None] is "N/A" *)
  f_xl : float;
  f_xu : float;
  f_xr : float;
  product : float;            (* f(xl)*f(xr) *)
  Remarks : string }.

Record result : Type := mk_result {
  root : float;
  data : list row;
  how : status }.

Definition remarks_of (f_c error tolerance : float) (i max_iter : nat)
  : string :=
  if abs f_c <? tolerance then "Converged by function value"
  else if error <? tolerance then "Converged by error tolerance"
  else if (i =? max_iter - 1)%nat then "Max iterations reached"
  else EmptyString.

(** One interval; [None] is the [break] on a near-zero denominator, after
    which nothing is appended for the interval. *)
Fixpoint regula_falsi_loop (f : float -> float) (tolerance : float)
         (max_iter n i : nat) (a b : float) (prev_c : option float)
         (last : option (float * float)) (iterations_data : list row)
  : exc (option result) :=
  match n with
  | O =>
    match last with
    | Some (c, f_c) =>
      Ok (Some (mk_result c iterations_data MaxIterationsReached))
    | None => Raise UnboundLocalError
    end
  | S n' =>
    let f_a := f a in
    let f_b := f b in
    if abs (f_b - f_a) <? 1e-10 then Ok None
    else
      let c := a - f_a * (b - a) / (f_b - f_a) in
      let f_c := f c in
      let error := error_of prev_c c in
      let remarks := remarks_of f_c error tolerance i max_iter in
      let iterations_data :=
        iterations_data
        ++ [mk_row i a b c (option_map (fun _ => error) prev_c)
                   f_a f_b f_c (f_a * f_c) remarks] in
      if found f_c prev_c error tolerance
      then Ok (Some (mk_result c iterations_data Converged))
      else
        let prev_c := Some c in
        if f_a * f_c <? 0
        then regula_falsi_loop f tolerance max_iter n' (S i) a c prev_c
                               (Some (c, f_c)) iterations_data
        else regula_falsi_loop f tolerance max_iter n' (S i) c b prev_c
                               (Some (c, f_c)) iterations_data
  end.

Definition regula_falsi_interval (f : float -> float) (tolerance : float)
           (max_iter : nat) (ab : Interval) : exc (option result) :=
  regula_falsi_loop f tolerance max_iter max_iter 0 (fst ab) (snd ab)
                    None None [].

Definition regula_falsi_method (f : float -> float)
           (x_min x_max tolerance : float) (max_iter : nat)
  : exc (list result) :=
  let intervals := find_sign_change_intervals f x_min x_max default_num_points in
  for_each
    (fun all_iterations ab =>
       r <- regula_falsi_interval f tolerance max_iter ab ;;
       Ok (match r with
           | Some r => all_iterations ++ [r]
           | None => all_iterations
           end))
    intervals [].

End RegulaFalsi.

(** ** Newton-Raphson *)

Module Newton.

Record row : Type := mk_row {
  Iteration : nat;
  xl : float;          (* x_n *)
  rel_error : float;   (* the column "a" *)
  f_x : float;
  f_prime : float }.

(** How the search ended.  Only [RootFound] and [MaxIterations] append to
    [self.roots] and [self.iterations_data]. *)
Inductive outcome : Type :=
| RootFound (next_x : float) (iterations : nat) (data : list row)
| MaxIterations (x : float) (data : list row)
| DerivativeNearZero (x : float) (data : list row).

(** The iteration records an outcome carries. *)
Definition data_of (o : outcome) : list row :=
  match o with
  | RootFound _ _ data => data
  | MaxIterations _ data => data
  | DerivativeNearZero _ data => data
  end.

(** [error] of the step from [x] to [next_x]. *)
Definition error_of (x next_x : float) : exc float :=
  if negb (next_x =? 0)
  then r <- truediv (next_x - x) next_x ;; Ok (abs r * 100)
  else Ok (abs (next_x - x) * 100).

(** The test guarding [break] after a step. *)
Definition found (f_x error tolerance : float) : bool :=
  (abs f_x <? tolerance) || (error <? tolerance).

(** [for i in range(max_iter): ... else: ...]; [n] passes are left.  The
    initial guess is a Python float, so the divisions are modelled with
    Python's raising division.  [f] and [f'] return at every point here;
    [Fallible.newton_loop] covers calls that raise. *)
Fixpoint newton_loop (f f' : float -> float) (tolerance : float)
         (n i : nat) (x : float) (iterations_data : list row) : exc outcome :=
  match n with
  | O => Ok (MaxIterations x iterations_data)
  | S n' =>
    let f_x := f x in
    let f_prime_x := f' x in
    if abs f_prime_x <? 1e-10
    then Ok (DerivativeNearZero x iterations_data)
    else
      q <- truediv f_x f_prime_x ;;
      let next_x := x - q in
      error <- error_of x next_x ;;
      let iterations_data :=
        iterations_data ++ [mk_row i x error f_x f_prime_x] in
      if found f_x error tolerance
      then Ok (RootFound next_x (S i) iterations_data)
      else newton_loop f f' tolerance n' (S i) next_x iterations_data
  end.

Definition newton_raphson_method (f f' : float -> float)
           (initial_guess tolerance : float) (max_iter : nat) : exc outcome :=
  newton_loop f f' tolerance max_iter 0 initial_guess [].

End Newton.

(** ** Secant *)

Module Secant.

Record row : Type := mk_row {
  Iteration : nat;
  x_prev : float;      (* xi-1 *)
  x_cur : float;       (* xi *)
  x_next : float;      (* xi+1 *)
  rel_error : float;
  f_prev : float;
  f_cur : float;
  f_next : float }.

Inductive outcome : Type :=
| RootFound (x2 : float) (iterations : nat) (data : list row)
| MaxIterations (x1 : float) (data : list row)
| DivisionByNearZero (i : nat) (data : list row).

(** The test guarding [break] after a step: on the new point [x2]. *)
Definition found (f_x2 error tolerance : float) : bool :=
  (abs f_x2 <? tolerance) || (error <? tolerance).

(** [f] returns at every point here; [Fallible.secant_loop] covers calls
    that raise. *)
Fixpoint secant_loop (f : float -> float) (tolerance : float)
         (n i : nat) (x0 x1 : float) (iterations_data : list row)
  : exc outcome :=
  match n with
  | O => Ok (MaxIterations x1 iterations_data)
  | S n' =>
    let f_x0 := f x0 in
    let f_x1 := f x1 in
    if abs (f_x1 - f_x0) <? 1e-10
    then Ok (DivisionByNearZero i iterations_data)
    else
      q <- truediv (f_x1 * (x1 - x0)) (f_x1 - f_x0) ;;
      let x2 := x1 - q in
      let f_x2 := f x2 in
      error <- Newton.error_of x1 x2 ;;
      let iterations_data :=
        iterations_data ++ [mk_row i x0 x1 x2 error f_x0 f_x1 f_x2] in
      if found f_x2 error tolerance
      then Ok (RootFound x2 (S i) iterations_data)
      else secant_loop f tolerance n' (S i) x1 x2 iterations_data
  end.

Definition secant_method (f : float -> float) (x0 x1 tolerance : float)
           (max_iter : nat) : exc outcome :=
  secant_loop f tolerance max_iter 0 x0 x1 [].

End Secant.

(** ** [format_number] *)

Module Format.

(** The values a table cell can hold. *)
Inductive cell : Type :=
| Float (v : float)
| Int (z : Z)
| Str (s : string).

Section FormatNumber.

(** Python's built-in formatting, which the method calls:
    [format_4e v] is [f"{v:.4e}"] and [round_4 v] is [round(v, 4)]. *)
Variable format_4e : float -> string.
Variable round_4 : float -> float.

(** [format_number]; [use_full_precision] is the value of the check box.
    For an [int], [abs(value) < 0.0001] holds only for [0], [f"{0:.4e}"]
    formats the float [0.0], and [round(value, 4)] returns the integer. *)
Definition format_number (use_full_precision : bool) (value : cell) : cell :=
  match value with
  | Float v =>
    if use_full_precision then value
    else if abs v <? 0.0001 then Str (format_4e v)
    else Float (round_4 v)
  | Int z =>
    if use_full_precision then value
    else if (Z.abs z =? 0)%Z then Str (format_4e 0)
    else Int z
  | Str _ => value
  end.

End FormatNumber.

End Format.

(** ** The expression compiler: [parse_function] *)

Module Compiler.

(** The library calls of [parse_function]: Python's [str] methods, [re.sub],
    [eval] in the restricted environment, and sympy's [lambdify] and [diff].
    An expression is a sympy object, a compiled function is what [lambdify]
    returns. *)
Record library : Type := mk_library {
  Expr : Type;
  Fn : Type;
  strip : string -> string;                        (* s.strip() *)
  startswith : string -> string -> bool;           (* s.startswith(p) *)
  slice_from : string -> nat -> string;            (* s[n:] *)
  contains : string -> string -> bool;             (* sub in s *)
  replace : string -> string -> string -> string;  (* s.replace(old, new) *)
  split : string -> string -> list string;         (* s.split(sep) *)
  split_whitespace : string -> list string;        (* s.split() *)
  re_sub : string -> string -> string -> string;   (* re.sub(pat, repl, s) *)
  eval : string -> exc Expr;                       (* eval(s, safe_env) *)
  lambdify : Expr -> exc Fn;        (* sp.lambdify(self.x_sym, e, 'numpy') *)
  diff : Expr -> exc Expr }.                       (* sp.diff(e, self.x_sym) *)

(** The attributes of [self] that [parse_function] assigns.  [__init__] sets
    [function] to [None] and [function_str] to the empty string and does not
    create [derivative]: [None] stands for the missing attribute. *)
Record session (Fn : Type) : Type := mk_session {
  function_str : string;
  function : option Fn;
  derivative : option Fn }.
Arguments mk_session {Fn} _ _ _.
Arguments function_str {Fn} _.
Arguments function {Fn} _.
Arguments derivative {Fn} _.

Definition initial {Fn : Type} : session Fn := mk_session EmptyString None None.

(** Statements that mutate [self] and may raise: the state reached when the
    exception is raised is kept, as it is for the [except] clause. *)
Definition action (S A : Type) : Type := S -> exc A * S.

Definition ret {S A} (a : A) : action S A := fun s => (Ok a, s).

Definition seq_bind {S A B} (m : action S A) (k : A -> action S B)
  : action S B :=
  fun s =>
    match m s with
    | (Ok a, s') => k a s'
    | (Raise e, s') => (Raise e, s')
    end.

Definition lift {S A} (m : exc A) : action S A := fun s => (m, s).

Definition read {S A} (proj : S -> A) : action S A := fun s => (Ok (proj s), s).

Definition assign {S} (upd : S -> S) : action S unit := fun s => (Ok tt, upd s).

End Compiler.

Notation "x <~ m ;; k" := (Compiler.seq_bind m (fun x => k))
  (at level 61, m at next level, right associativity).
Notation "m ;;; k" := (Compiler.seq_bind m (fun _ => k))
  (at level 61, right associativity).

Module ParseFunction.

Import Compiler.

Section WithLibrary.

Variable L : library.

Let state : Type := session (Fn L).

Definition set_function_str (s : string) (self : state) : state :=
  mk_session s (function self) (derivative self).

Definition set_function (f : Fn L) (self : state) : state :=
  mk_session (function_str self) (Some f) (derivative self).

Definition set_derivative (f : Fn L) (self : state) : state :=
  mk_session (function_str self) (function self) (Some f).

(** [l[0]]. *)
Definition first (l : list string) : exc string :=
  match l with
  | s :: _ => Ok s
  | [] => Raise IndexError
  end.

(** [l[1]], read under [len(l) > 1]. *)
Definition second (l : list string) : exc string :=
  match l with
  | _ :: s :: _ => Ok s
  | _ => Raise IndexError
  end.

(** [parts[1].split()[0].split('-')[0].split('+')[0].split('*')[0].split('/')[0]] *)
Definition var_part_of (parts : list string) : exc string :=
  p <- second parts ;;
  t <- first (split_whitespace L p) ;;
  t <- first (split L t "-") ;;
  t <- first (split L t "+") ;;
  t <- first (split L t "*") ;;
  first (split L t "/").

(** The two branches that close the parenthesis opened for [e^-] and [e^];
    [opening] is ["exp(-"] or ["exp("]. *)
Definition close_exp (caret opening : string) : action state unit :=
  s <~ read function_str ;;
  assign (set_function_str (replace L s caret opening)) ;;;
  s <~ read function_str ;;
  let parts := split L s opening in
  if (1 <? length parts)%nat then
    var_part <~ lift (var_part_of parts) ;;
    s <~ read function_str ;;
    assign (set_function_str
              (replace L s (opening ++ var_part) (opening ++ var_part ++ ")")))
  else ret tt.

(** The first part of the [try] block, after the prefix check: the text is
    rewritten in [self.function_str], statement by statement. *)
Definition rewrite_text (input_str : string) : action state unit :=
  assign (set_function_str (strip L (slice_from L input_str 6))) ;;;
  s <~ read function_str ;;
  (if contains L "e^-" s then close_exp "e^-" "exp(-"
   else if contains L "e^" s then close_exp "e^" "exp("
   else ret tt) ;;;
  s <~ read function_str ;;
  assign (set_function_str (replace L s "^" "**")) ;;;
  s <~ read function_str ;;
  assign (set_function_str (re_sub L "(\d)([a-zA-Z\(])" "\1*\2" s)) ;;;
  s <~ read function_str ;;
  assign (set_function_str (re_sub L "([a-zA-Z\)])(\d)" "\1*\2" s)) ;;;
  s <~ read function_str ;;
  assign (set_function_str (replace L s "ln(" "log(")).

(** The second part: the expression is evaluated, compiled and installed,
    then differentiated, and the derivative compiled and installed. *)
Definition install : action state bool :=
  s <~ read function_str ;;
  f_expr <~ lift (eval L s) ;;
  fn <~ lift (lambdify L f_expr) ;;
  assign (set_function fn) ;;;
  d_expr <~ lift (diff L f_expr) ;;
  dfn <~ lift (lambdify L d_expr) ;;
  assign (set_derivative dfn) ;;;
  ret true.

Definition compile (input_str : string) : action state bool :=
  rewrite_text input_str ;;; install.

(** [parse_function]: the returned flag and the attributes of [self]
    afterwards.  Every exception is caught and turned into [False]. *)
Definition parse_function (self : state) (entry : string) : bool * state :=
  let input_str := strip L entry in
  if negb (startswith L input_str "f(x) =") then (false, self)
  else
    match compile input_str self with
    | (Ok b, self') => (b, self')
    | (Raise _, self') => (false, self')
    end.

End WithLibrary.

End ParseFunction.

(** ** The Convergence Policy, as the specification words it *)

Module Policy.

(** The relative error of the specification:
    [|x_curr - x_prev| / |x_curr| * 100] when [x_curr] is not zero, else
    [|x_curr - x_prev| * 100]. *)
Definition relative_error (x_prev x_curr : float) : float :=
  if negb (x_curr =? 0) then abs (x_curr - x_prev) / abs x_curr * 100
  else abs (x_curr - x_prev) * 100.

(** Converged when [|f(x_curr)| < tolerance] or
    [relative_error < tolerance]; without a previous approximation only the
    function value is tested. *)
Definition converged (f : float -> float) (x_prev : option float)
           (x_curr tolerance : float) : bool :=
  (abs (f x_curr) <? tolerance)
  || match x_prev with
     | Some p => relative_error p x_curr <? tolerance
     | None => false
     end.

End Policy.

(** ** Predicates used to state the properties *)

Module Trace.



(** The interval bisection continues with after a pass on [[a, b]]. *)
Definition narrowed (f : float -> float) (a b : float) : float * float :=
  let c := (a + b) / 2 in
  if f a * f c <? 0 then (a, c) else (c, b).

(** [r] is the record of pass [i] of bisection on [[a, b]]. *)
Definition bisection_row (f : float -> float) (i : nat) (a b : float)
           (prev_c : option float) (r : Bisection.row) : Prop :=
  Bisection.Iteration r = i
  /\ Bisection.xl r = a /\ Bisection.xu r = b
  /\ Bisection.xr r = (a + b) / 2
  /\ Bisection.f_xl r = f a /\ Bisection.f_xu r = f b
  /\ Bisection.product r = f a * f b
  /\ Bisection.rel_error r
     = option_map (fun _ => error_of prev_c ((a + b) / 2)) prev_c.

(** [rows] is the trace of consecutive passes of bisection that starts at
    pass [i] on [[a, b]]: each record belongs to its pass, each pass but the
    last fails the stopping test and hands the narrowed interval to the
    next, and the last pass meets the stopping test exactly when the search
    ended as [Converged]. *)
Fixpoint bisection_trace (f : float -> float) (tolerance : float)
         (how : status) (i : nat) (a b : float) (prev_c : option float)
         (rows : list Bisection.row) : Prop :=
  match rows with
  | [] => False
  | r :: rest =>
    let c := (a + b) / 2 in
    let stop := found (f c) prev_c (error_of prev_c c) tolerance in
    bisection_row f i a b prev_c r
    /\ match rest with
       | [] => stop = match how with
                      | Converged => true
                      | MaxIterationsReached => false
                      end
       | _ :: _ =>
         stop = false
         /\ bisection_trace f tolerance how (S i)
                            (fst (narrowed f a b)) (snd (narrowed f a b))
                            (Some c) rest
       end
  end.




(** The roots an interval of regula falsi contributes: one, or none after
    the [break] on a near-zero denominator. *)
Definition reported {A : Type} (r : option A) : list A :=
  match r with
  | Some r => [r]
  | None => []
  end.

(** Compiling [entry] in the state [self] is all or nothing: it succeeds
    with both [function] and [derivative] installed, or it fails and leaves
    both as they were. *)
Definition atomic (L : Compiler.library)
           (self : Compiler.session (Compiler.Fn L)) (entry : string) : Prop :=
  let r := ParseFunction.parse_function L self entry in
  (fst r = true
   /\ Compiler.function (snd r) <> None
   /\ Compiler.derivative (snd r) <> None)
  \/ (fst r = false
      /\ Compiler.function (snd r) = Compiler.function self
      /\ Compiler.derivative (snd r) = Compiler.derivative self).

(** The record [r] of a Newton-Raphson step shows a step that divided: the
    derivative value it holds passed the guard and is not a zero. *)
Definition divided (f f' : float -> float) (r : Newton.row) : Prop :=
  (abs (Newton.f_prime r) <? 1e-10) = false
  /\ (Newton.f_prime r =? 0) = false
  /\ Newton.f_prime r = f' (Newton.xl r)
  /\ Newton.f_x r = f (Newton.xl r).

(** A statement sequence that leaves [function] and [derivative] alone,
    whether it completes or raises. *)
Definition keeps {Fn A : Type}
           (m : Compiler.action (Compiler.session Fn) A) : Prop :=
  forall s,
    Compiler.function (snd (m s)) = Compiler.function s
    /\ Compiler.derivative (snd (m s)) = Compiler.derivative s.

End Trace.

(** ** Concrete functions and runs *)

Module Scenario.

(** [f(x) = x^2], compiled to [x**2], and its derivative [2*x].  The
    square is written as a product: numpy squares an array that way, and on
    the numbers used below the square is exact. *)
Definition square (x : float) : float := x * x.
Definition square' (x : float) : float := 2 * x.

(** [f(x) = x^2 + 0.25]; the derivative is again [2*x]. *)
Definition lifted (x : float) : float := x * x + 0.25.

(** [f(x) = x]. *)
Definition identity (x : float) : float := x.

(** [f(x) = x*(x-1)]. *)
Definition parabola (x : float) : float := x * (x - 1).

(** [f(x) = x^2 - 4] (scenario A). *)
Definition shifted (x : float) : float := x * x - 4.

(** What Python's [f"{v:.4e}"] and [round(v, 4)] give at the numbers used
    below: [1e-05], [0.0] (scientific) and [0.5] (already rounded). *)
Definition show_4e (v : float) : string :=
  if v =? 0 then "0.0000e+00" else "1.0000e-05".

Definition keep_4 (v : float) : float := v.

(** A library in which an expression can be compiled but not
    differentiated.  Expressions are the symbol [x], the number [1] and a
    list display that holds [x]; compiled functions are named by their
    source text.  The string functions are Python's on the two texts
    compiled below, ["f(x) = x"] and ["f(x) = [x]"], which hold no blank
    other than the space, no [^], no digit and no [ln(], so that [replace]
    and [re.sub] return them unchanged. *)
Inductive toy_expr : Type :=
| Symbol_x
| Number_1
| Display.

Definition toy_eval (s : string) : exc toy_expr :=
  if String.eqb s "x" then Ok Symbol_x
  else if String.eqb s "[x]" then Ok Display
  else Raise (OtherException "invalid syntax").

Definition toy_lambdify (e : toy_expr) : exc string :=
  match e with
  | Symbol_x => Ok "x"%string
  | Number_1 => Ok "1"%string
  | Display => Ok "[x]"%string
  end.

Definition toy_diff (e : toy_expr) : exc toy_expr :=
  match e with
  | Symbol_x => Ok Number_1
  | Number_1 => Ok Number_1
  | Display => Raise (OtherException "cannot be differentiated")
  end.

(** [s.strip()] for the blank character. *)
Fixpoint lstrip (s : string) : string :=
  match s with
  | String " "%char r => lstrip r
  | _ => s
  end.

Fixpoint rev_string (s acc : string) : string :=
  match s with
  | EmptyString => acc
  | String c r => rev_string r (String c acc)
  end.

Definition toy_strip (s : string) : string :=
  rev_string (lstrip (rev_string (lstrip s) EmptyString)) EmptyString.

Definition toy_library : Compiler.library :=
  Compiler.mk_library toy_expr string
    toy_strip
    (fun s p => String.prefix p s)
    (fun s n => String.substring n (String.length s - n) s)
    (fun sub s => match String.index 0 sub s with Some _ => true | None => false end)
    (fun s old new => s)
    (fun s sep => [s])
    (fun s => [s])
    (fun pat repl s => s)
    toy_eval toy_lambdify toy_diff.

End Scenario.

(** ** Predicates for the traces of regula falsi, Newton-Raphson and secant *)

Module Steps.

(** The zero of the line through [(a, f(a))] and [(b, f(b))]. *)
Definition crossing (f : float -> float) (ab : Interval) : float :=
  fst ab - f (fst ab) * (snd ab - fst ab) / (f (snd ab) - f (fst ab)).


(** *** Regula falsi *)

Definition falsi_narrowed (f : float -> float) (a b : float) : float * float :=
  let c := crossing f (a, b) in
  if f a * f c <? 0 then (a, c) else (c, b).

(** [r] is the record of pass [i] of regula falsi on [[a, b]], a pass whose
    denominator passed the guard. *)
Definition falsi_row (f : float -> float) (i : nat) (a b : float)
           (prev_c : option float) (r : RegulaFalsi.row) : Prop :=
  let c := crossing f (a, b) in
  (abs (f b - f a) <? 1e-10) = false
  /\ RegulaFalsi.Iteration r = i
  /\ RegulaFalsi.xl r = a /\ RegulaFalsi.xu r = b /\ RegulaFalsi.xr r = c
  /\ RegulaFalsi.rel_error r = option_map (fun _ => error_of prev_c c) prev_c
  /\ RegulaFalsi.f_xl r = f a /\ RegulaFalsi.f_xu r = f b
  /\ RegulaFalsi.f_xr r = f c
  /\ RegulaFalsi.product r = f a * f c.

(** [rows] are the records of consecutive passes, from pass [i] on
    [[a, b]], none of which met the stopping test; the next pass would run
    on [[a', b']] with [prev'] as previous point. *)
Fixpoint falsi_steps (f : float -> float) (tolerance : float) (i : nat)
         (a b : float) (prev_c : option float) (rows : list RegulaFalsi.row)
         (a' b' : float) (prev' : option float) : Prop :=
  match rows with
  | [] => a' = a /\ b' = b /\ prev' = prev_c
  | r :: rest =>
    let c := crossing f (a, b) in
    falsi_row f i a b prev_c r
    /\ found (f c) prev_c (error_of prev_c c) tolerance = false
    /\ falsi_steps f tolerance (S i)
                   (fst (falsi_narrowed f a b)) (snd (falsi_narrowed f a b))
                   (Some c) rest a' b' prev'
  end.

(** *** Newton-Raphson *)




(** *** Secant *)




(** *** The incremental walk *)

(** An entry of the incremental method's result: a sample that is a root
    within tolerance, with no trace, or the refinement of a bracket
    [[x0, x0 + step_size]] inside the range on which [f] changes sign. *)
Definition walk_entry (f : float -> float) (x_max step_size tolerance : float)
           (max_iter : nat) (e : float * list Incremental.row) : Prop :=
  (snd e = [] /\ (abs (f (fst e)) <? tolerance) = true)
  \/ exists x0,
      (x0 <=? x_max) = true
      /\ (x0 + step_size <=? x_max) = true
      /\ (abs (f x0) <? tolerance) = false
      /\ (f x0 * f (x0 + step_size) <? 0) = true
      /\ e = Incremental.refine f tolerance max_iter x0 (x0 + step_size).

(** *** [parse_function] *)

(** A statement sequence whose outcome and resulting text do not depend on
    the state it starts from. *)
Definition resets {Fn A : Type}
           (m : Compiler.action (Compiler.session Fn) A) : Prop :=
  forall s1 s2,
    fst (m s1) = fst (m s2)
    /\ Compiler.function_str (snd (m s1)) = Compiler.function_str (snd (m s2)).

(** A statement sequence whose outcome and resulting text depend on the
    text of the state only. *)
Definition text_only {Fn A : Type}
           (m : Compiler.action (Compiler.session Fn) A) : Prop :=
  forall s1 s2,
    Compiler.function_str s1 = Compiler.function_str s2 ->
    fst (m s1) = fst (m s2)
    /\ Compiler.function_str (snd (m s1)) = Compiler.function_str (snd (m s2)).

End Steps.

(** ** What [lambdify] returns, called on an array *)

Module Compiled.

(** A scalar that is a Python number ([5], [0.25], [pi]) or a numpy scalar
    (the value of [sin(1)]). *)
Inductive scalar_kind : Type :=
| PythonNumber
| NumpyScalar.

(** The function [sp.lambdify(x, expr, 'numpy')] builds.  When [x] occurs in
    the expression it is applied to each element of an array; for a constant
    expression it returns the constant, whatever it is called on. *)
Inductive function : Type :=
| Elementwise (f : float -> float)
| Constant (c : float) (kind : scalar_kind).

(** [self.function(x)] on a number. *)
Definition call (F : function) (x : float) : float :=
  match F with
  | Elementwise f => f x
  | Constant c _ => c
  end.

(** What [self.function(x)] returns on an array. *)
Inductive value : Type :=
| Array (y : list float)
| Scalar (c : float) (kind : scalar_kind).

Definition call_array (F : function) (x : list float) : value :=
  match F with
  | Elementwise f => Array (map f x)
  | Constant c kind => Scalar c kind
  end.

(** [y[i]] on a scalar: a Python number is not subscriptable, a numpy scalar
    cannot be indexed. *)
Definition subscript_error (kind : scalar_kind) : error :=
  match kind with
  | PythonNumber => TypeError
  | NumpyScalar => IndexError
  end.

(** [find_sign_change_intervals] for any compiled function: on a scalar [y]
    the first pass of the loop raises at [y[i-1]]. *)
Definition find_sign_change_intervals
           (F : function) (x_min x_max : float) (num_points : nat)
  : exc (list Interval) :=
  let x := linspace x_min x_max num_points in
  match call_array F x with
  | Array y => Ok (scan x y)
  | Scalar _ kind =>
    match seq 1 (length x - 1) with
    | [] => Ok []
    | _ :: _ => Raise (subscript_error kind)
    end
  end.

(** [bisection_method] for any compiled function. *)
Definition bisection_method (F : function) (x_min x_max tolerance : float)
           (max_iter : nat) : exc (list Bisection.result) :=
  intervals <- find_sign_change_intervals F x_min x_max default_num_points ;;
  for_each
    (fun all_iterations ab =>
       r <- Bisection.bisection_interval (call F) tolerance max_iter ab ;;
       Ok (all_iterations ++ [r]))
    intervals [].

(** [regula_falsi_method] for any compiled function. *)
Definition regula_falsi_method (F : function)
           (x_min x_max tolerance : float) (max_iter : nat)
  : exc (list RegulaFalsi.result) :=
  intervals <- find_sign_change_intervals F x_min x_max default_num_points ;;
  for_each
    (fun all_iterations ab =>
       r <- RegulaFalsi.regula_falsi_interval (call F) tolerance max_iter ab ;;
       Ok (match r with
           | Some r => all_iterations ++ [r]
           | None => all_iterations
           end))
    intervals [].

End Compiled.

(** ** Newton-Raphson and secant on a function that may raise *)

Module Fallible.

(** [self.function] and [self.derivative] called on a Python float: the call
    returns a float or raises ([x**2] raises [OverflowError] at [1e200],
    [1/x] raises [ZeroDivisionError] at [0.0]). *)
Definition function : Type := float -> exc float.

(** The value of a call that returns. *)
Definition value (f : function) (x : float) : float :=
  match f x with
  | Ok v => v
  | Raise _ => nan
  end.

(** A function that never raises. *)
Definition total (g : float -> float) : function := fun x => Ok (g x).

(** [newton_raphson_method]'s loop.  Before it appends a root the method
    evaluates [self.function] once more, at the point it reports, for the
    text it displays. *)
Fixpoint newton_loop (f f' : function) (tolerance : float)
         (n i : nat) (x : float) (iterations_data : list Newton.row)
  : exc Newton.outcome :=
  match n with
  | O =>
    _ <- f x ;;
    Ok (Newton.MaxIterations x iterations_data)
  | S n' =>
    f_x <- f x ;;
    f_prime_x <- f' x ;;
    if abs f_prime_x <? 1e-10
    then Ok (Newton.DerivativeNearZero x iterations_data)
    else
      q <- truediv f_x f_prime_x ;;
      let next_x := x - q in
      error <- Newton.error_of x next_x ;;
      let iterations_data :=
        iterations_data ++ [Newton.mk_row i x error f_x f_prime_x] in
      if Newton.found f_x error tolerance
      then
        _ <- f next_x ;;
        Ok (Newton.RootFound next_x (S i) iterations_data)
      else newton_loop f f' tolerance n' (S i) next_x iterations_data
  end.

Definition newton_raphson_method (f f' : function)
           (initial_guess tolerance : float) (max_iter : nat)
  : exc Newton.outcome :=
  newton_loop f f' tolerance max_iter 0 initial_guess [].

(** [secant_method]'s loop; the [else] clause evaluates [self.function(x1)]
    for the text it displays. *)
Fixpoint secant_loop (f : function) (tolerance : float)
         (n i : nat) (x0 x1 : float) (iterations_data : list Secant.row)
  : exc Secant.outcome :=
  match n with
  | O =>
    _ <- f x1 ;;
    Ok (Secant.MaxIterations x1 iterations_data)
  | S n' =>
    f_x0 <- f x0 ;;
    f_x1 <- f x1 ;;
    if abs (f_x1 - f_x0) <? 1e-10
    then Ok (Secant.DivisionByNearZero i iterations_data)
    else
      q <- truediv (f_x1 * (x1 - x0)) (f_x1 - f_x0) ;;
      let x2 := x1 - q in
      f_x2 <- f x2 ;;
      error <- Newton.error_of x1 x2 ;;
      let iterations_data :=
        iterations_data ++ [Secant.mk_row i x0 x1 x2 error f_x0 f_x1 f_x2] in
      if Secant.found f_x2 error tolerance
      then Ok (Secant.RootFound x2 (S i) iterations_data)
      else secant_loop f tolerance n' (S i) x1 x2 iterations_data
  end.

Definition secant_method (f : function) (x0 x1 tolerance : float)
           (max_iter : nat) : exc Secant.outcome :=
  secant_loop f tolerance max_iter 0 x0 x1 [].






End Fallible.

(** ** More concrete functions *)

Module Cases.



(** [f(x) = x^2] on Python floats: [x**2] raises [OverflowError] when the
    square exceeds the largest float. *)
Definition square_or_overflow : Fallible.function :=
  fun x =>
    if PrimFloat.is_finite x && PrimFloat.is_infinity (x * x)
    then Raise OverflowError
    else Ok (x * x).

End Cases.

(** * Properties *)

(** ** Binary64 facts *)

Section Binary64.

Lemma SFabs_round :
  forall s m e l,
    SFabs (binary_round_aux prec emax s m e l)
    = binary_round_aux prec emax false m e l.
Proof.
  intros s m e l. unfold binary_round_aux.
  destruct (shr_fexp prec emax m e l) as [mrs e'].
  destruct (shr_fexp prec emax _ e' loc_Exact) as [mrs' e''].
  destruct (shr_m mrs'); try reflexivity.
  destruct (e'' <=? emax - prec)%Z; reflexivity.
Qed.

Lemma SFabs_div :
  forall x y, SFabs (SF64div x y) = SF64div (SFabs x) (SFabs y).
Proof.
  intros x y. unfold SF64div, SFdiv.
  destruct x as [sx | sx | | sx mx ex], y as [sy | sy | | sy my ey];
    try reflexivity.
  cbn [SFabs].
  destruct (SFdiv_core_binary prec emax (Z.pos mx) ex (Z.pos my) ey)
    as [[mz ez] lz].
  apply SFabs_round.
Qed.

(** [|a / b| = |a| / |b|], exactly, in binary64. *)
Lemma abs_div : forall a b : float, abs (a / b) = abs a / abs b.
Proof.
  intros a b. apply Prim2SF_inj.
  rewrite abs_spec, !div_spec, !abs_spec. apply SFabs_div.
Qed.

(** Nothing is above [float('inf')]. *)
Lemma infinity_not_below : forall t : float, (infinity <? t) = false.
Proof.
  intro t. rewrite FloatAxioms.ltb_spec.
  change (Prim2SF infinity) with (S754_infinity false).
  unfold SFltb, SFcompare.
  destruct (Prim2SF t) as [s | [|] | | s m e]; reflexivity.
Qed.



(** A zero is below the derivative threshold [1e-10] in magnitude. *)
Lemma zero_below_threshold :
  forall d : float, (d =? 0) = true -> (abs d <? 1e-10) = true.
Proof.
  intros d Hd.
  rewrite FloatAxioms.eqb_spec in Hd.
  rewrite FloatAxioms.ltb_spec, abs_spec.
  change (Prim2SF 0) with (S754_zero false) in Hd.
  destruct (Prim2SF d) as [s | s | | s m e]; cbn in Hd;
    try discriminate; try (destruct s; discriminate).
  vm_compute. reflexivity.
Qed.

End Binary64.

(** ** The scanner *)

Section ScannerFacts.

(** A loop that appends the selected items is a filter followed by a map. *)
Lemma fold_left_collect :
  forall (A : Type) (c : nat -> bool) (g : nat -> A) (l : list nat)
         (acc : list A),
    fold_left (fun acc i => if c i then acc ++ [g i] else acc) l acc
    = acc ++ map g (filter c l).
Proof.
  intros A c g l. induction l as [| i l IH]; intro acc; cbn [fold_left filter].
  - cbn. now rewrite app_nil_r.
  - rewrite IH. destruct (c i); cbn [map]; [| reflexivity].
    now rewrite <- app_assoc.
Qed.

Lemma set_last_length :
  forall (y : list float) (v : float),
    y <> [] -> length (set_last y v) = length y.
Proof.
  intros y v Hy. unfold set_last.
  destruct (exists_last Hy) as [y' [a ->]].
  rewrite removelast_last, !length_app. reflexivity.
Qed.




Lemma linspace_length :
  forall (lo hi : float) (n : nat), length (linspace lo hi n) = n.
Proof.
  intros lo hi n. unfold linspace.
  assert (Hlen : forall g h : float -> float,
             length (map g (map h (map of_nat (seq 0 n)))) = n)
    by (intros; now rewrite !length_map, length_seq).
  destruct (1 <? n)%nat eqn:Hn.
  - apply Nat.ltb_lt in Hn.
    rewrite set_last_length.
    + destruct (0 <? n - 1)%nat; [destruct (_ =? 0) |]; apply Hlen.
    + intro E. apply (f_equal (@length float)) in E.
      destruct (0 <? n - 1)%nat; [destruct (_ =? 0) |];
        rewrite Hlen in E; cbn in E; lia.
  - destruct (0 <? n - 1)%nat; [destruct (_ =? 0) |]; apply Hlen.
Qed.



Lemma getitem_map :
  forall (f : float -> float) (x : list float) (i : nat),
    (i < length x)%nat -> getitem (map f x) i = f (getitem x i).
Proof.
  intros f x i Hi. unfold getitem.
  rewrite (nth_indep _ nan (f nan)) by (now rewrite length_map).
  apply map_nth.
Qed.

(** The scanner as a filter over the sample indices. *)
Lemma scan_filter :
  forall x y : list float,
    scan x y
    = map (fun i => (getitem x (i - 1), getitem x i))
          (filter (fun i => getitem y (i - 1) * getitem y i <=? 0)
                  (seq 1 (length x - 1))).
Proof.
  intros x y. unfold scan.
  apply (fold_left_collect _
           (fun i => getitem y (i - 1) * getitem y i <=? 0)
           (fun i => (getitem x (i - 1), getitem x i))).
Qed.



End ScannerFacts.

(** ** Bisection *)

Section BisectionFacts.

Variable f : float -> float.
Variable tolerance : float.

(** One pass of the loop: the record, the test, the narrowed interval. *)
Lemma bisection_loop_pass :
  forall (max_iter n i : nat) (a b : float) (prev_c : option float)
         (last : option (float * float)) (iterations_data : list Bisection.row),
    let c := (a + b) / 2 in
    let error := error_of prev_c c in
    let rows :=
      iterations_data
      ++ [Bisection.mk_row i a c b (f a) (f b)
            (option_map (fun _ => error) prev_c) (f a * f b)
            (Bisection.remarks_of (f c) prev_c error tolerance i max_iter)] in
    Bisection.bisection_loop f tolerance max_iter (S n) i a b prev_c last
                             iterations_data
    = if found (f c) prev_c error tolerance
      then Ok (Bisection.mk_result c rows Converged)
      else Bisection.bisection_loop f tolerance max_iter n (S i)
             (fst (Trace.narrowed f a b)) (snd (Trace.narrowed f a b))
             (Some c) (Some (c, f c)) rows.
Proof.
  intros max_iter n i a b prev_c last iterations_data c err rows.
  subst rows err c. cbn [Bisection.bisection_loop].
  destruct (found _ prev_c _ tolerance); [reflexivity |].
  unfold Trace.narrowed. destruct (f a * f ((a + b) / 2) <? 0); reflexivity.
Qed.

(** The loop, run for at least one pass, returns; what it returns is a
    trace of consecutive passes whose last midpoint is the root. *)
Lemma bisection_loop_trace :
  forall (max_iter n i : nat) (a b : float) (prev_c : option float)
         (last : option (float * float)) (data0 : list Bisection.row),
  exists r rows,
    Bisection.bisection_loop f tolerance max_iter (S n) i a b prev_c last data0
    = Ok r
    /\ Bisection.data r = data0 ++ rows
    /\ Trace.bisection_trace f tolerance (Bisection.how r) i a b prev_c rows
    /\ (length rows <= S n)%nat
    /\ (Bisection.how r = MaxIterationsReached -> length rows = S n)
    /\ exists init l, rows = init ++ [l] /\ Bisection.root r = Bisection.xr l.
Proof.
  intros max_iter n. induction n as [| n IH]; intros i a b prev_c last data0;
    rewrite bisection_loop_pass;
    set (c := (a + b) / 2);
    set (row := Bisection.mk_row _ _ _ _ _ _ _ _ _);
    destruct (found (f c) prev_c (error_of prev_c c) tolerance) eqn:Hstop.
  - exists (Bisection.mk_result c (data0 ++ [row]) Converged), [row].
    cbn. fold c. rewrite Hstop.
    repeat split; try lia; try discriminate.
    exists [], row. split; reflexivity.
  - cbn [Bisection.bisection_loop].
    exists (Bisection.mk_result c (data0 ++ [row]) MaxIterationsReached), [row].
    cbn. fold c. rewrite Hstop.
    repeat split; try lia.
    exists [], row. split; reflexivity.
  - exists (Bisection.mk_result c (data0 ++ [row]) Converged), [row].
    cbn. fold c. rewrite Hstop.
    repeat split; try lia; try discriminate.
    exists [], row. split; reflexivity.
  - destruct (IH (S i) (fst (Trace.narrowed f a b)) (snd (Trace.narrowed f a b))
                 (Some c) (Some (c, f c)) (data0 ++ [row]))
      as (r & rows & Hrun & Hdata & Htrace & Hlen & Hmax & init & l & Hrows & Hroot).
    exists r, (row :: rows). rewrite Hrun.
    split; [reflexivity |].
    split; [rewrite Hdata, <- app_assoc; reflexivity |].
    split.
    { cbn [Trace.bisection_trace]. fold c. rewrite Hstop.
      split; [repeat split |].
      destruct rows as [| r' rows']; [destruct init; discriminate |].
      split; [reflexivity | exact Htrace]. }
    split; [cbn [length]; lia |].
    split; [intro H; cbn [length]; rewrite (Hmax H); reflexivity |].
    exists (row :: init), l. rewrite Hrows. split; [reflexivity | exact Hroot].
Qed.

End BisectionFacts.

(** C6: on an interval [(a, b)], with [max_iter >= 1], bisection returns.
    Its trace holds one record per pass; the record of a pass on [[a, b]]
    shows the midpoint [c = (a + b) / 2] and the values [f(a)], [f(b)]; a
    pass that does not meet the stopping test is followed by a pass on
    [[a, c]] when [f(a) * f(c) < 0] and on [[c, b]] otherwise; there are at
    most [max_iter] passes, exactly [max_iter] when the search ends without
    convergence; and in both cases the root reported is the midpoint of the
    last pass. *)
Theorem bisection_interval_passes :
  forall (f : float -> float) (tolerance : float) (max_iter : nat)
         (a b : float),
    (1 <= max_iter)%nat ->
    exists r,
      Bisection.bisection_interval f tolerance max_iter (a, b) = Ok r
      /\ Trace.bisection_trace f tolerance (Bisection.how r) 0 a b None
                               (Bisection.data r)
      /\ (1 <= length (Bisection.data r) <= max_iter)%nat
      /\ (Bisection.how r = MaxIterationsReached ->
          length (Bisection.data r) = max_iter)
      /\ exists init l,
          Bisection.data r = init ++ [l]
          /\ Bisection.root r = Bisection.xr l.
Proof.
  intros f tolerance max_iter a b Hmax.
  destruct max_iter as [| n]; [lia |].
  destruct (bisection_loop_trace f tolerance (S n) n 0 a b None None [])
    as (r & rows & Hrun & Hdata & Htrace & Hlen & Hall & init & l & Hrows & Hroot).
  cbn [app] in Hdata. subst rows.
  exists r. unfold Bisection.bisection_interval. cbn [fst snd].
  repeat split; try assumption.
  - rewrite Hrows, length_app. cbn [length]. lia.
  - exists init, l. split; assumption.
Qed.

Lemma bisection_interval_passes_witness :
  (1 <= 100)%nat
  /\ exists r,
      Bisection.bisection_interval Scenario.shifted 0.0001 100 (1, 3) = Ok r
      /\ Trace.bisection_trace Scenario.shifted 0.0001 (Bisection.how r) 0 1 3
                               None (Bisection.data r)
      /\ (1 <= length (Bisection.data r) <= 100)%nat
      /\ (Bisection.how r = MaxIterationsReached ->
          length (Bisection.data r) = 100%nat)
      /\ exists init l,
          Bisection.data r = init ++ [l]
          /\ Bisection.root r = Bisection.xr l.
Proof.
  split; [lia | apply bisection_interval_passes; lia].
Defined.

(** C3: in the bisection loop the relative error of the midpoint [c]
    against the previous midpoint is [|c - prev| / |c| * 100] when [c] is
    not zero and [|c - prev| * 100] when it is; a pass is judged converged
    exactly when [|f(c)| < tolerance] or that error is below the tolerance;
    and on the first pass, where there is no previous midpoint (the error is
    infinite), the test is the one on the function value alone. *)
Theorem convergence_check :
  forall (f : float -> float) (tolerance : float) (prev_c : option float)
         (c : float),
    (forall x_prev, error_of (Some x_prev) c = Policy.relative_error x_prev c)
    /\ found (f c) prev_c (error_of prev_c c) tolerance
       = (abs (f c) <? tolerance) || (error_of prev_c c <? tolerance)
    /\ found (f c) prev_c (error_of prev_c c) tolerance
       = Policy.converged f prev_c c tolerance
    /\ found (f c) None (error_of None c) tolerance
       = (abs (f c) <? tolerance)
    /\ forall (max_iter n i : nat) (a b : float)
              (last : option (float * float)) (data : list Bisection.row),
        let m := (a + b) / 2 in
        let rows :=
          data
          ++ [Bisection.mk_row i a m b (f a) (f b)
                (option_map (fun _ => error_of prev_c m) prev_c) (f a * f b)
                (Bisection.remarks_of (f m) prev_c (error_of prev_c m)
                                      tolerance i max_iter)] in
        Bisection.bisection_loop f tolerance max_iter (S n) i a b prev_c last
                                 data
        = if found (f m) prev_c (error_of prev_c m) tolerance
          then Ok (Bisection.mk_result m rows Converged)
          else Bisection.bisection_loop f tolerance max_iter n (S i)
                 (fst (Trace.narrowed f a b)) (snd (Trace.narrowed f a b))
                 (Some m) (Some (m, f m)) rows.
Proof.
  intros f tolerance prev_c c.
  assert (Herr : forall x_prev,
             error_of (Some x_prev) c = Policy.relative_error x_prev c).
  { intro x_prev. unfold error_of, Policy.relative_error.
    destruct (negb (c =? 0)); [| reflexivity]. now rewrite abs_div. }
  split; [exact Herr |].
  split.
  { unfold found, error_below. destruct prev_c as [p |]; [reflexivity |].
    cbn [error_of]. now rewrite infinity_not_below. }
  split.
  { unfold found, error_below, Policy.converged.
    destruct prev_c as [p |]; [| reflexivity]. now rewrite Herr. }
  split.
  { unfold found, error_below. apply orb_false_r. }
  intros. apply bisection_loop_pass.
Qed.

(** ** The incremental refinement *)

Section IncrementalFacts.

Variable f : float -> float.
Variable tolerance : float.


End IncrementalFacts.


(** ** Newton-Raphson *)

Section NewtonFacts.

Variables f f' : float -> float.
Variable tolerance : float.

Lemma guard_excludes_zero :
  forall d : float, (abs d <? 1e-10) = false -> (d =? 0) = false.
Proof.
  intros d Hd. destruct (d =? 0) eqn:E; [| reflexivity].
  apply zero_below_threshold in E. congruence.
Qed.

Lemma newton_error_total :
  forall x next_x : float, exists e, Newton.error_of x next_x = Ok e.
Proof.
  intros x next_x. unfold Newton.error_of, truediv.
  destruct (next_x =? 0); cbn; eauto.
Qed.

(** The loop never raises, and every record it writes comes from a step
    whose derivative passed the guard. *)
Lemma newton_loop_total :
  forall (n i : nat) (x : float) (data0 : list Newton.row),
  exists o rows,
    Newton.newton_loop f f' tolerance n i x data0 = Ok o
    /\ Newton.data_of o = data0 ++ rows
    /\ Forall (Trace.divided f f') rows.
Proof.
  induction n as [| n IH]; intros i x data0.
  - exists (Newton.MaxIterations x data0), []. cbn. rewrite app_nil_r. auto.
  - cbn [Newton.newton_loop].
    destruct (abs (f' x) <? 1e-10) eqn:Hguard.
    + exists (Newton.DerivativeNearZero x data0), []. cbn.
      rewrite app_nil_r. auto.
    + pose proof (guard_excludes_zero _ Hguard) as Hnz.
      unfold truediv at 1. rewrite Hnz. cbn [bind].
      destruct (newton_error_total x (x - f x / f' x)) as [e He].
      rewrite He. cbn [bind].
      set (row := Newton.mk_row i x e (f x) (f' x)).
      assert (Hrow : Trace.divided f f' row) by (repeat split; assumption).
      destruct (Newton.found (f x) e tolerance).
      * exists (Newton.RootFound (x - f x / f' x) (S i) (data0 ++ [row])), [row].
        cbn. auto.
      * destruct (IH (S i) (x - f x / f' x) (data0 ++ [row]))
          as (o & rows & Hrun & Hdata & Hall).
        exists o, (row :: rows). rewrite Hrun, Hdata, <- app_assoc. auto.
Qed.

End NewtonFacts.

(** C5: a Newton-Raphson step at which [|f'(x_n)| < 1e-10] ends the search
    at once, with [x_n] and the trace unchanged (no quotient is computed, no
    record written); the search never raises, so it never divides by zero,
    and every record in its trace comes from a step whose derivative passed
    the guard and is not zero; for [f(x) = x^2] from the guess [0] the
    search stops at the first step for this reason. *)
Theorem newton_degenerate_guard :
  forall (f f' : float -> float) (initial_guess tolerance : float)
         (max_iter : nat),
    (forall (n i : nat) (x : float) (data : list Newton.row),
        (abs (f' x) <? 1e-10) = true ->
        Newton.newton_loop f f' tolerance (S n) i x data
        = Ok (Newton.DerivativeNearZero x data))
    /\ (exists o,
           Newton.newton_raphson_method f f' initial_guess tolerance max_iter
           = Ok o
           /\ Forall (Trace.divided f f') (Newton.data_of o))
    /\ ((1 <= max_iter)%nat ->
        Newton.newton_raphson_method Scenario.square Scenario.square' 0
                                     tolerance max_iter
        = Ok (Newton.DerivativeNearZero 0 [])).
Proof.
  intros f f' initial_guess tolerance max_iter.
  split; [| split].
  - intros n i x data Hguard. cbn [Newton.newton_loop]. now rewrite Hguard.
  - destruct (newton_loop_total f f' tolerance max_iter 0 initial_guess [])
      as (o & rows & Hrun & Hdata & Hall).
    exists o. split; [exact Hrun |]. now rewrite Hdata.
  - intro Hmax. destruct max_iter as [| n]; [lia |]. reflexivity.
Qed.

Lemma newton_degenerate_guard_witness :
  (abs (Scenario.square' 0) <? 1e-10) = true
  /\ (1 <= 100)%nat
  /\ Newton.newton_loop Scenario.square Scenario.square' 0.0001 1 0 0 []
     = Ok (Newton.DerivativeNearZero 0 [])
  /\ Newton.newton_raphson_method Scenario.square Scenario.square' 0 0.0001 100
     = Ok (Newton.DerivativeNearZero 0 []).
Proof.
  destruct (newton_degenerate_guard Scenario.square Scenario.square' 0 0.0001
                                    100) as (Hstop & _ & Hsquare).
  split; [reflexivity |].
  split; [lia |].
  split; [apply Hstop; reflexivity | apply Hsquare; lia].
Defined.

(** C1 (a defect of the code): for [f(x) = x^2 + 0.25] from the guess
    [0.125] with tolerance [0.5], Newton-Raphson declares the root [-0.9375]
    found at the first step, because it tests [|f(x_n)| = 0.265625] at the
    old point; the Convergence Policy applied to [x_{n+1} = -0.9375] against
    [x_n = 0.125] does not hold, since [|f(x_{n+1})| = 1.12890625] and the
    relative error is above 113 percent. *)
Theorem newton_tests_previous_point :
  Newton.newton_raphson_method Scenario.lifted Scenario.square' 0.125 0.5 100
  = Ok (Newton.RootFound (-0.9375) 1
          [Newton.mk_row 0 0.125 (abs ((-0.9375 - 0.125) / -0.9375) * 100)
                         0.265625 0.25])
  /\ (abs (Scenario.lifted 0.125) <? 0.5) = true
  /\ (abs (Scenario.lifted (-0.9375)) <? 0.5) = false
  /\ (Policy.relative_error 0.125 (-0.9375) <? 0.5) = false
  /\ Policy.converged Scenario.lifted (Some 0.125) (-0.9375) 0.5 = false.
Proof.
  repeat split; vm_compute; reflexivity.
Qed.

(** ** The graphical method *)

(** C10 (a defect of the code): for [f(x) = x*(x-1)] on [[0, 999]] the
    samples at [x = 0] and [x = 1] are both zero, the test
    [y[0] * y[1] <= 0] holds, and the denominator [y[1] - y[0]] of the
    interpolation is zero: the division is not guarded, and the first root
    reported is NaN. *)
Theorem graphical_unguarded_division :
  let x := linspace 0 999 1000 in
  let y := map Scenario.parabola x in
  (getitem y 0 * getitem y 1 <=? 0) = true
  /\ (getitem y 1 - getitem y 0 =? 0) = true
  /\ is_nan (Graphical.interpolate x y 1) = true
  /\ exists roots,
      Graphical.graphical_method Scenario.parabola 0 999 = nan :: roots.
Proof.
  cbv zeta. repeat split; try (vm_compute; reflexivity).
  eexists. vm_compute. reflexivity.
Qed.

(** ** [format_number] *)

(** C8: with full precision requested a number is returned unchanged,
    whatever its magnitude; otherwise a number of magnitude below [1e-4] is
    rendered in scientific notation and any other number is rounded to four
    decimal places (an integer, which has none, stays as it is). *)
Theorem format_number_cases :
  forall (format_4e : float -> string) (round_4 : float -> float)
         (v : float) (z : Z),
    Format.format_number format_4e round_4 true (Format.Float v)
    = Format.Float v
    /\ Format.format_number format_4e round_4 true (Format.Int z)
       = Format.Int z
    /\ ((abs v <? 0.0001) = true ->
        Format.format_number format_4e round_4 false (Format.Float v)
        = Format.Str (format_4e v))
    /\ ((abs v <? 0.0001) = false ->
        Format.format_number format_4e round_4 false (Format.Float v)
        = Format.Float (round_4 v))
    /\ (z = 0%Z ->
        Format.format_number format_4e round_4 false (Format.Int z)
        = Format.Str (format_4e 0))
    /\ (z <> 0%Z ->
        Format.format_number format_4e round_4 false (Format.Int z)
        = Format.Int z).
Proof.
  intros format_4e round_4 v z. cbn [Format.format_number].
  repeat split.
  - intros ->. reflexivity.
  - intros ->. reflexivity.
  - intros ->. reflexivity.
  - intro Hz. destruct (Z.abs z =? 0)%Z eqn:E; [| reflexivity].
    apply Z.eqb_eq in E. lia.
Qed.

Lemma format_number_cases_witness :
  (abs 0.00001 <? 0.0001) = true
  /\ (abs 0.5 <? 0.0001) = false
  /\ Format.format_number Scenario.show_4e Scenario.keep_4 false
                          (Format.Float 0.00001)
     = Format.Str "1.0000e-05"
  /\ Format.format_number Scenario.show_4e Scenario.keep_4 false
                          (Format.Float 0.5)
     = Format.Float 0.5
  /\ Format.format_number Scenario.show_4e Scenario.keep_4 false (Format.Int 0)
     = Format.Str "0.0000e+00"
  /\ Format.format_number Scenario.show_4e Scenario.keep_4 false (Format.Int 7)
     = Format.Int 7.
Proof.
  destruct (format_number_cases Scenario.show_4e Scenario.keep_4 0.00001 0)
    as (_ & _ & Hsmall & _ & Hzero & _).
  destruct (format_number_cases Scenario.show_4e Scenario.keep_4 0.5 7)
    as (_ & _ & _ & Hlarge & _ & Hint).
  split; [reflexivity |].
  split; [reflexivity |].
  split; [apply Hsmall; reflexivity |].
  split; [apply Hlarge; reflexivity |].
  split; [apply Hzero; reflexivity | apply Hint; discriminate].
Defined.

(** ** [parse_function] *)

Section CompilerFacts.

Import Compiler ParseFunction.

Variable L : library.

Let state : Type := session (Fn L).

Lemma keeps_ret : forall (A : Type) (a : A), Trace.keeps (@ret state A a).
Proof. intros A a s. split; reflexivity. Qed.

Lemma keeps_lift : forall (A : Type) (m : exc A), Trace.keeps (@lift state A m).
Proof. intros A m s. split; reflexivity. Qed.

Lemma keeps_read :
  forall (A : Type) (proj : state -> A), Trace.keeps (read proj).
Proof. intros A proj s. split; reflexivity. Qed.

Lemma keeps_assign_text :
  forall t : string, Trace.keeps (assign (set_function_str L t)).
Proof. intros t s. split; reflexivity. Qed.

Lemma keeps_bind :
  forall (A B : Type) (m : action state A) (k : A -> action state B),
    Trace.keeps m -> (forall a, Trace.keeps (k a)) ->
    Trace.keeps (seq_bind m k).
Proof.
  intros A B m k Hm Hk s. unfold seq_bind.
  destruct (Hm s) as [Hf Hd]. destruct (m s) as [[a | e] s'] eqn:E.
  - cbn [snd] in Hf, Hd. destruct (Hk a s') as [Hf' Hd'].
    split; congruence.
  - cbn [snd] in *. split; assumption.
Qed.

Lemma keeps_if :
  forall (A : Type) (c : bool) (m1 m2 : action state A),
    Trace.keeps m1 -> Trace.keeps m2 -> Trace.keeps (if c then m1 else m2).
Proof. intros A c m1 m2 H1 H2. destruct c; assumption. Qed.

Create HintDb keeps discriminated.
Hint Resolve keeps_ret keeps_lift keeps_read keeps_assign_text keeps_if
  : keeps.

Ltac keeps_steps :=
  repeat (first [ apply keeps_bind; [| intro ]
                | apply keeps_if
                | solve [ auto with keeps ] ]).

Lemma keeps_close_exp :
  forall caret opening : string, Trace.keeps (close_exp L caret opening).
Proof. intros caret opening. unfold close_exp. keeps_steps. Qed.

(** Rewriting the text touches [function_str] only. *)
Lemma keeps_rewrite_text :
  forall input_str : string, Trace.keeps (rewrite_text L input_str).
Proof.
  intro input_str. unfold rewrite_text.
  pose proof keeps_close_exp. keeps_steps; auto.
Qed.

End CompilerFacts.

(** C2 as the code has it: [parse_function] returns [True] only with both
    [function] and [derivative] installed, compiled from the expression the
    rewritten text evaluates to and from its derivative.  When it returns
    [False], [derivative] is what it was before.  [function] is what it was
    before when the failure precedes its installation: a missing prefix, an
    exception while the text is rewritten, while it is evaluated or while
    the expression is compiled.  [function] is the newly compiled function,
    with [derivative] still the old one, when differentiating, or compiling
    the derivative, is what raised. *)
Theorem parse_function_installs :
  forall (L : Compiler.library) (self : Compiler.session (Compiler.Fn L))
         (entry : string),
    let r := ParseFunction.parse_function L self entry in
    let input_str := Compiler.strip L entry in
    let rewritten := ParseFunction.rewrite_text L input_str self in
    let text := Compiler.function_str (snd rewritten) in
    (fst r = true ->
     exists e d fn dfn,
       Compiler.eval L (Compiler.function_str (snd r)) = Ok e
       /\ Compiler.lambdify L e = Ok fn
       /\ Compiler.diff L e = Ok d
       /\ Compiler.lambdify L d = Ok dfn
       /\ Compiler.function (snd r) = Some fn
       /\ Compiler.derivative (snd r) = Some dfn)
    /\ (fst r = false ->
        Compiler.derivative (snd r) = Compiler.derivative self
        /\ (Compiler.function (snd r) = Compiler.function self
            \/ exists e fn,
                Compiler.eval L (Compiler.function_str (snd r)) = Ok e
                /\ Compiler.lambdify L e = Ok fn
                /\ Compiler.function (snd r) = Some fn
                /\ (is_ok (Compiler.diff L e) = false
                    \/ exists d, Compiler.diff L e = Ok d
                                 /\ is_ok (Compiler.lambdify L d) = false)))
    /\ (Compiler.startswith L input_str "f(x) =" = false -> r = (false, self))
    /\ (Compiler.startswith L input_str "f(x) =" = true ->
        (is_ok (fst rewritten) = false
         \/ is_ok (Compiler.eval L text) = false
         \/ exists e, Compiler.eval L text = Ok e
                      /\ is_ok (Compiler.lambdify L e) = false) ->
        fst r = false
        /\ Compiler.function (snd r) = Compiler.function self
        /\ Compiler.derivative (snd r) = Compiler.derivative self)
    /\ (Compiler.startswith L input_str "f(x) =" = true ->
        is_ok (fst rewritten) = true ->
        forall e fn,
          Compiler.eval L text = Ok e ->
          Compiler.lambdify L e = Ok fn ->
          (is_ok (Compiler.diff L e) = false
           \/ exists d, Compiler.diff L e = Ok d
                        /\ is_ok (Compiler.lambdify L d) = false) ->
          fst r = false
          /\ Compiler.function_str (snd r) = text
          /\ Compiler.function (snd r) = Some fn
          /\ Compiler.derivative (snd r) = Compiler.derivative self)
    /\ (Compiler.startswith L input_str "f(x) =" = true ->
        is_ok (fst rewritten) = true ->
        forall e fn d dfn,
          Compiler.eval L text = Ok e ->
          Compiler.lambdify L e = Ok fn ->
          Compiler.diff L e = Ok d ->
          Compiler.lambdify L d = Ok dfn ->
          r = (true, Compiler.mk_session text (Some fn) (Some dfn))).
Proof.
  intros L self entry. cbv zeta. unfold ParseFunction.parse_function.
  destruct (Compiler.startswith L (Compiler.strip L entry) "f(x) =") eqn:Hpre;
    cbn [negb].
  2:{ cbn [fst snd].
      repeat (split; try discriminate; auto). }
  unfold ParseFunction.compile, Compiler.seq_bind.
  destruct (keeps_rewrite_text L (Compiler.strip L entry) self) as [Hf Hd].
  destruct (ParseFunction.rewrite_text L (Compiler.strip L entry) self)
    as [[u | err] s1].
  2:{ cbn [fst snd is_ok] in *.
      split; [discriminate |]. split; [auto |]. split; [discriminate |].
      split; [auto |]. split; discriminate. }
  cbn [fst snd is_ok] in *.
  unfold ParseFunction.install, Compiler.seq_bind, Compiler.read,
    Compiler.lift, Compiler.assign, Compiler.ret.
  destruct (Compiler.eval L (Compiler.function_str s1)) as [e | err] eqn:He.
  2:{ cbn [fst snd is_ok].
      split; [discriminate |]. split; [auto |]. split; [discriminate |].
      split; [auto |]. split; intros _ _; intros; discriminate. }
  destruct (Compiler.lambdify L e) as [fn | err] eqn:Hfn.
  2:{ cbn [fst snd is_ok].
      split; [discriminate |]. split; [auto |]. split; [discriminate |].
      split; [auto |].
      split; intros _ _; intros * He' Hfn'; inversion He'; subst;
        rewrite Hfn in Hfn'; discriminate. }
  destruct (Compiler.diff L e) as [d | err] eqn:Hdiff.
  2:{ cbn [fst snd is_ok].
      split; [discriminate |].
      split.
      { intros _. split; [exact Hd |]. right. exists e, fn. cbn.
        rewrite He, Hfn, Hdiff. auto. }
      split; [discriminate |].
      split.
      { intros _ [H | [H | (e' & He' & H)]]; try discriminate.
        inversion He'; subst. rewrite Hfn in H. discriminate. }
      split.
      { intros _ _ e' fn' He' Hfn' _. inversion He'; subst.
        rewrite Hfn in Hfn'. inversion Hfn'; subst. cbn. auto. }
      intros _ _ e' fn' d' dfn' He' _ Hdiff'. inversion He'; subst.
      rewrite Hdiff in Hdiff'. discriminate. }
  destruct (Compiler.lambdify L d) as [dfn | err] eqn:Hdfn.
  2:{ cbn [fst snd is_ok].
      split; [discriminate |].
      split.
      { intros _. split; [exact Hd |]. right. exists e, fn. cbn.
        rewrite He, Hfn, Hdiff. repeat split; try reflexivity.
        right. exists d. rewrite Hdfn. auto. }
      split; [discriminate |].
      split.
      { intros _ [H | [H | (e' & He' & H)]]; try discriminate.
        inversion He'; subst. rewrite Hfn in H. discriminate. }
      split.
      { intros _ _ e' fn' He' Hfn' _. inversion He'; subst.
        rewrite Hfn in Hfn'. inversion Hfn'; subst. cbn. auto. }
      intros _ _ e' fn' d' dfn' He' _ Hdiff' Hdfn'. inversion He'; subst.
      rewrite Hdiff in Hdiff'. inversion Hdiff'; subst.
      rewrite Hdfn in Hdfn'. discriminate. }
  cbn [fst snd is_ok].
  split.
  { intros _. exists e, d, fn, dfn. cbn. auto 7. }
  split; [discriminate |]. split; [discriminate |].
  split.
  { intros _ [H | [H | (e' & He' & H)]]; try discriminate.
    inversion He'; subst. rewrite Hfn in H. discriminate. }
  split.
  { intros _ _ e' fn' He' Hfn' [H | (d' & Hd' & H)];
      inversion He'; subst.
    - rewrite Hdiff in H. discriminate.
    - rewrite Hdiff in Hd'. inversion Hd'; subst.
      rewrite Hdfn in H. discriminate. }
  intros _ _ e' fn' d' dfn' He' Hfn' Hdiff' Hdfn'. inversion He'; subst.
  rewrite Hfn in Hfn'. inversion Hfn'; subst.
  rewrite Hdiff in Hdiff'. inversion Hdiff'; subst.
  rewrite Hdfn in Hdfn'. inversion Hdfn'; subst.
  reflexivity.
Qed.

Lemma parse_function_installs_witness :
  fst (ParseFunction.parse_function Scenario.toy_library Compiler.initial
                                    "f(x) = x") = true
  /\ ParseFunction.parse_function Scenario.toy_library Compiler.initial
                                  "f(x) = x"
     = (true, Compiler.mk_session "x" (Some "x"%string) (Some "1"%string))
  /\ fst (ParseFunction.parse_function Scenario.toy_library Compiler.initial
                                       "f(x) = [x]") = false
  /\ Compiler.function
       (snd (ParseFunction.parse_function Scenario.toy_library Compiler.initial
                                          "f(x) = [x]")) = Some "[x]"%string
  /\ Compiler.derivative
       (snd (ParseFunction.parse_function Scenario.toy_library Compiler.initial
                                          "f(x) = [x]")) = None
  /\ ParseFunction.parse_function Scenario.toy_library Compiler.initial "x"
     = (false, Compiler.initial)
  /\ Compiler.function
       (snd (ParseFunction.parse_function Scenario.toy_library Compiler.initial
                                          "f(x) = y")) = None.
Proof.
  destruct (parse_function_installs Scenario.toy_library Compiler.initial
                                    "f(x) = x")
    as (_ & _ & _ & _ & _ & Hboth).
  destruct (parse_function_installs Scenario.toy_library Compiler.initial
                                    "f(x) = [x]")
    as (_ & Hfail & _ & _ & Hpartial & _).
  destruct (parse_function_installs Scenario.toy_library Compiler.initial "x")
    as (_ & _ & Hprefix & _).
  destruct (parse_function_installs Scenario.toy_library Compiler.initial
                                    "f(x) = y")
    as (_ & _ & _ & Hearly & _).
  cbv zeta in *.
  split; [reflexivity |].
  split.
  { apply (Hboth eq_refl eq_refl Scenario.Symbol_x "x"%string
                 Scenario.Number_1 "1"%string); reflexivity. }
  split; [reflexivity |].
  split.
  { apply (Hpartial eq_refl eq_refl Scenario.Display "[x]"%string);
      try reflexivity. left. reflexivity. }
  split; [apply (Hfail eq_refl) |].
  split; [apply Hprefix; reflexivity |].
  apply (Hearly eq_refl). right. left. reflexivity.
Defined.

(** C2, as stated, fails: in a library whose [diff] rejects an expression
    that [lambdify] accepts, compiling ["f(x) = [x]"] in a fresh session
    reports failure and leaves [function] installed with no [derivative]. *)
Lemma parse_function_not_atomic :
  ParseFunction.parse_function Scenario.toy_library Compiler.initial
                               "f(x) = [x]"
  = (false, Compiler.mk_session "[x]" (Some "[x]"%string) None)
  /\ ~ Trace.atomic Scenario.toy_library Compiler.initial "f(x) = [x]".
Proof.
  split; [reflexivity |].
  unfold Trace.atomic. cbn.
  intros [[H _] | [_ [H _]]]; discriminate.
Qed.

(** ** A zero that falls on a sample *)

Section ZeroSample.

(** A loop that appends what each item contributes, over items that never
    raise, collects the contributions in order. *)
Lemma for_each_collect :
  forall (A R B : Type) (step : A -> exc R) (g : R -> list B)
         (body : list B -> A -> exc (list B)),
    (forall acc a, body acc a = bind (step a) (fun r => Ok (acc ++ g r))) ->
    (forall a, exists r, step a = Ok r) ->
    forall (l : list A) (acc : list B),
    exists rs,
      Forall2 (fun a r => step a = Ok r) l rs
      /\ for_each body l acc = Ok (acc ++ flat_map g rs).
Proof.
  intros A R B step g body Hbody Htotal.
  induction l as [| a l IH]; intro acc.
  - exists []. cbn. rewrite app_nil_r. split; [constructor | reflexivity].
  - destruct (Htotal a) as [r Hr].
    destruct (IH (acc ++ g r)) as (rs & Hall & Hrun).
    exists (r :: rs). split; [constructor; assumption |].
    cbn [for_each flat_map]. rewrite Hbody, Hr. cbn [bind].
    rewrite Hrun, <- app_assoc. reflexivity.
Qed.


Lemma bisection_interval_total :
  forall (f : float -> float) (tolerance : float) (max_iter : nat),
    (1 <= max_iter)%nat ->
    forall ab, exists r, Bisection.bisection_interval f tolerance max_iter ab = Ok r.
Proof.
  intros f tolerance max_iter Hmax ab. unfold Bisection.bisection_interval.
  destruct max_iter as [| n]; [lia |].
  destruct (bisection_loop_trace f tolerance (S n) n 0 (fst ab) (snd ab)
                                 None None []) as (r & _ & Hrun & _).
  eauto.
Qed.

Lemma regula_falsi_loop_total :
  forall (f : float -> float) (tolerance : float) (max_iter n i : nat)
         (a b : float) (prev_c : option float)
         (last : option (float * float)) (data : list RegulaFalsi.row),
    (n = 0%nat -> last <> None) ->
    exists o,
      RegulaFalsi.regula_falsi_loop f tolerance max_iter n i a b prev_c last
                                    data = Ok o.
Proof.
  intros f tolerance max_iter. induction n as [| n IH];
    intros i a b prev_c last data Hlast; cbn [RegulaFalsi.regula_falsi_loop].
  - destruct last as [[c f_c] |]; [eauto | now destruct Hlast].
  - destruct (abs (f b - f a) <? 1e-10); [eauto |].
    destruct (found _ prev_c _ tolerance); [eauto |].
    destruct (f a * f _ <? 0); apply IH; discriminate.
Qed.

Lemma regula_falsi_interval_total :
  forall (f : float -> float) (tolerance : float) (max_iter : nat),
    (1 <= max_iter)%nat ->
    forall ab,
    exists o, RegulaFalsi.regula_falsi_interval f tolerance max_iter ab = Ok o.
Proof.
  intros f tolerance max_iter Hmax ab.
  apply regula_falsi_loop_total. lia.
Qed.


End ZeroSample.


(** ** Runs *)


(** Scenario A: bisection on [f(x) = x^2 - 4] over [[-5, 5]] with tolerance
    [1e-4] and at most 100 passes finds two roots, within [1e-4] of [-2]
    and [2]. *)
Example bisection_scenario_A :
  exists r1 r2,
    Bisection.bisection_method Scenario.shifted (-5) 5 0.0001 100 = Ok [r1; r2]
    /\ (abs (Bisection.root r1 + 2) <? 0.0001) = true
    /\ (abs (Bisection.root r2 - 2) <? 0.0001) = true.
Proof.
  eexists. eexists. split; [vm_compute; reflexivity |].
  split; vm_compute; reflexivity.
Qed.

(** Scenario E: [f(x) = x^2 + 0.25] has no sign change on [[-5, 5]]; the
    scanner returns no interval and both bracketing methods report no
    root, without raising. *)
Example no_sign_change_scenario_E :
  find_sign_change_intervals Scenario.lifted (-5) 5 default_num_points = []
  /\ Bisection.bisection_method Scenario.lifted (-5) 5 0.0001 100 = Ok []
  /\ RegulaFalsi.regula_falsi_method Scenario.lifted (-5) 5 0.0001 100 = Ok [].
Proof.
  repeat split; vm_compute; reflexivity.
Qed.

(** For comparison with Newton-Raphson: on the same function and tolerance
    the secant method, started at [x0 = 0.25], [x1 = 0.125] where
    [|f(x1)| < 0.5], does not stop at its first step, because it tests the
    new point [x2], where [|f(x2)| >= 0.5]. *)
Example secant_tests_new_point :
  (abs (Scenario.lifted 0.125) <? 0.5) = true
  /\ exists x1 data,
      Secant.secant_method Scenario.lifted 0.25 0.125 0.5 1
      = Ok (Secant.MaxIterations x1 data)
      /\ (abs (Scenario.lifted x1) <? 0.5) = false.
Proof.
  split; [reflexivity |].
  eexists. eexists. split; vm_compute; reflexivity.
Qed.

(** ** The incremental walk *)

(** Every entry the incremental method returns is a direct root with an
    empty trace or the refinement of a bracket [[x, x + step_size]] on which
    [f] changes sign. *)
Lemma incremental_walk_entries :
  forall (f : float -> float) (x_max step_size tolerance : float)
         (max_iter fuel : nat) (x : float)
         (all_iterations result : list (float * list Incremental.row)),
    let entry_ok := fun e : float * list Incremental.row =>
      snd e = []
      \/ exists x0,
          (f x0 * f (x0 + step_size) <? 0) = true
          /\ e = Incremental.refine f tolerance max_iter x0 (x0 + step_size) in
    Forall entry_ok all_iterations ->
    Incremental.incremental_walk f x_max step_size tolerance max_iter fuel x
                                 all_iterations = Some result ->
    Forall entry_ok result.
Proof.
  intros f x_max step_size tolerance max_iter fuel.
  induction fuel as [| fuel IH]; intros x all_iterations result entry_ok Hall;
    cbn [Incremental.incremental_walk]; [discriminate |].
  destruct (x <=? x_max); [| intro H; inversion H; subst; exact Hall].
  destruct (abs (f x) <? tolerance).
  - apply IH. apply Forall_app. split; [exact Hall |].
    constructor; [left; reflexivity | constructor].
  - apply IH.
    destruct (x + step_size <=? x_max); [| exact Hall].
    destruct (f x * f (x + step_size) <? 0) eqn:Hsign; [| exact Hall].
    apply Forall_app. split; [exact Hall |].
    constructor; [right; exists x; auto | constructor].
Qed.

(** On [f(x) = x^2 - 4] over [[1, 3]] with step [1.5] the walk refines the
    bracket [[1, 2.5]] and ends.  The refinement stops when the interval is
    narrower than the tolerance; its trace of 15 records ends with the
    remark "Final approximation". *)
Example incremental_run :
  exists root data,
    Incremental.incremental_method Scenario.shifted 1 3 1.5 0.0001 100 10
    = Some [(root, data)]
    /\ (abs (root - 2) <? 0.0001) = true
    /\ length data = 15%nat
    /\ map Incremental.Remarks (skipn 14 data) = ["Final approximation"%string].
Proof.
  eexists. eexists. split; [vm_compute; reflexivity |].
  repeat split; vm_compute; reflexivity.
Qed.

(** * Further properties of the code *)

(** ** The scanner and the methods built on it *)

(** Every interval the scanner returns is a pair of adjacent samples
    [(x[i-1], x[i])] on whose end points [f(a) * f(b) <= 0] holds, and there
    are at most [n - 1] of them (none when [n <= 1]). *)
Theorem scanner_interval_brackets :
  forall (f : float -> float) (lo hi : float) (n : nat),
    (length (find_sign_change_intervals f lo hi n) <= n - 1)%nat
    /\ forall a b,
        In (a, b) (find_sign_change_intervals f lo hi n) ->
        exists i,
          (1 <= i < n)%nat
          /\ a = getitem (linspace lo hi n) (i - 1)
          /\ b = getitem (linspace lo hi n) i
          /\ (f a * f b <=? 0) = true.
Proof.
  intros f lo hi n. unfold find_sign_change_intervals.
  rewrite scan_filter, linspace_length. split.
  - rewrite length_map.
    etransitivity; [apply filter_length_le | rewrite length_seq; lia].
  - intros a b Hin.
    apply in_map_iff in Hin as [i [Hab Hi]].
    apply filter_In in Hi as [Hi Htest]. apply in_seq in Hi.
    inversion Hab; subst a b. exists i.
    rewrite !getitem_map in Htest by (rewrite linspace_length; lia).
    repeat split; try lia. exact Htest.
Qed.

Lemma scanner_interval_brackets_witness :
  In (-1, 0) (find_sign_change_intervals Scenario.identity (-1) 98 100)
  /\ exists i,
      (1 <= i < 100)%nat
      /\ -1 = getitem (linspace (-1) 98 100) (i - 1)
      /\ 0 = getitem (linspace (-1) 98 100) i
      /\ (Scenario.identity (-1) * Scenario.identity 0 <=? 0) = true.
Proof.
  assert (Hin : In (-1, 0)
                   (find_sign_change_intervals Scenario.identity (-1) 98 100))
    by (vm_compute; left; reflexivity).
  split; [exact Hin |].
  apply (proj2 (scanner_interval_brackets Scenario.identity (-1) 98 100)).
  exact Hin.
Defined.

(** The roots of the graphical method are the linear interpolations
    [a - f(a) * (b - a) / (f(b) - f(a))] on exactly the intervals [(a, b)]
    the scanner finds with 1000 samples, in the same order. *)
Theorem graphical_interpolates_scanner_intervals :
  forall (f : float -> float) (x_min x_max : float),
    Graphical.graphical_method f x_min x_max
    = map (Steps.crossing f) (find_sign_change_intervals f x_min x_max 1000).
Proof.
  intros f x_min x_max.
  unfold Graphical.graphical_method, find_sign_change_intervals.
  cbv zeta. rewrite scan_filter.
  rewrite (fold_left_collect _
             (fun i => getitem (map f (linspace x_min x_max 1000)) (i - 1)
                       * getitem (map f (linspace x_min x_max 1000)) i <=? 0)
             (fun i => Graphical.interpolate (linspace x_min x_max 1000)
                         (map f (linspace x_min x_max 1000)) i)).
  cbn [app]. rewrite map_map. apply map_ext_in.
  intros i Hi. apply filter_In in Hi as [Hi _]. apply in_seq in Hi.
  rewrite linspace_length in Hi.
  unfold Graphical.interpolate, Steps.crossing. cbn [fst snd].
  rewrite !getitem_map by (rewrite linspace_length; lia). reflexivity.
Qed.

(** For a function applied to each sample, with [max_iter >= 1], bisection
    returns, and reports exactly one root for each interval of the scanner,
    in the scanner's order: the outcome of its loop on that interval. *)
Lemma bisection_one_root_per_interval :
  forall (f : float -> float) (x_min x_max tolerance : float)
         (max_iter : nat),
    (1 <= max_iter)%nat ->
    exists results,
      Bisection.bisection_method f x_min x_max tolerance max_iter = Ok results
      /\ length results
         = length (find_sign_change_intervals f x_min x_max default_num_points)
      /\ Forall2
           (fun ab r =>
              Bisection.bisection_interval f tolerance max_iter ab = Ok r)
           (find_sign_change_intervals f x_min x_max default_num_points)
           results.
Proof.
  intros f x_min x_max tolerance max_iter Hmax.
  unfold Bisection.bisection_method. cbv zeta.
  destruct (for_each_collect _ _ _
              (Bisection.bisection_interval f tolerance max_iter)
              (fun r => [r])
              (fun all_iterations ab =>
                 r <- Bisection.bisection_interval f tolerance max_iter ab ;;
                 Ok (all_iterations ++ [r]))
              ltac:(reflexivity)
              (bisection_interval_total f tolerance max_iter Hmax)
              (find_sign_change_intervals f x_min x_max default_num_points) [])
    as (rs & Hall & Hrun).
  assert (Hflat : flat_map (fun r : Bisection.result => [r]) rs = rs)
    by (clear; induction rs as [| r rs IH]; cbn; [| rewrite IH]; reflexivity).
  rewrite Hflat in Hrun. cbn [app] in Hrun.
  exists rs. split; [exact Hrun |]. split; [| exact Hall].
  symmetry. eapply Forall2_length, Hall.
Qed.

(** For a function applied to each sample, with [max_iter >= 1], regula
    falsi returns, and reports at most one root for each interval of the
    scanner, in the scanner's order: the root its loop found on that
    interval, or nothing when the loop stopped on a near-zero denominator. *)
Lemma regula_falsi_roots_per_interval :
  forall (f : float -> float) (x_min x_max tolerance : float)
         (max_iter : nat),
    (1 <= max_iter)%nat ->
    exists outcomes,
      RegulaFalsi.regula_falsi_method f x_min x_max tolerance max_iter
      = Ok (flat_map Trace.reported outcomes)
      /\ (length (flat_map Trace.reported outcomes)
          <= length (find_sign_change_intervals f x_min x_max
                                                default_num_points))%nat
      /\ Forall2
           (fun ab o =>
              RegulaFalsi.regula_falsi_interval f tolerance max_iter ab = Ok o)
           (find_sign_change_intervals f x_min x_max default_num_points)
           outcomes.
Proof.
  intros f x_min x_max tolerance max_iter Hmax.
  unfold RegulaFalsi.regula_falsi_method. cbv zeta.
  destruct (for_each_collect _ _ _
              (RegulaFalsi.regula_falsi_interval f tolerance max_iter)
              Trace.reported
              (fun all_iterations ab =>
                 r <- RegulaFalsi.regula_falsi_interval f tolerance max_iter
                        ab ;;
                 Ok (match r with
                     | Some r => all_iterations ++ [r]
                     | None => all_iterations
                     end))
              ltac:(intros acc ab; cbv beta;
                    destruct (RegulaFalsi.regula_falsi_interval _ _ _ ab)
                      as [[r |] | e]; cbn; rewrite ?app_nil_r; reflexivity)
              (regula_falsi_interval_total f tolerance max_iter Hmax)
              (find_sign_change_intervals f x_min x_max default_num_points) [])
    as (os & Hall & Hrun).
  cbn [app] in Hrun.
  exists os. split; [exact Hrun |]. split; [| exact Hall].
  rewrite (Forall2_length Hall).
  clear. induction os as [| [r |] os IH]; cbn; lia.
Qed.

(** With [max_iter = 0] the loops of bisection and regula falsi run no pass
    and their [else] clause reads the unbound local [c]: both methods raise
    [UnboundLocalError] as soon as the scanner finds an interval, and return
    nothing when it finds none. *)
Theorem bracketing_methods_without_passes :
  forall (f : float -> float) (x_min x_max tolerance : float),
    Bisection.bisection_method f x_min x_max tolerance 0
    = match find_sign_change_intervals f x_min x_max default_num_points with
      | [] => Ok []
      | _ :: _ => Raise UnboundLocalError
      end
    /\ RegulaFalsi.regula_falsi_method f x_min x_max tolerance 0
       = match find_sign_change_intervals f x_min x_max default_num_points with
         | [] => Ok []
         | _ :: _ => Raise UnboundLocalError
         end.
Proof.
  intros f x_min x_max tolerance.
  unfold Bisection.bisection_method, RegulaFalsi.regula_falsi_method.
  cbv zeta.
  destruct (find_sign_change_intervals f x_min x_max default_num_points);
    split; reflexivity.
Qed.

(** ** Regula falsi on one interval *)

Section RegulaFalsiFacts.

Variable f : float -> float.
Variable tolerance : float.

(** One pass of the loop. *)
Lemma regula_falsi_loop_pass :
  forall (max_iter n i : nat) (a b : float) (prev_c : option float)
         (last : option (float * float)) (data : list RegulaFalsi.row),
    let c := Steps.crossing f (a, b) in
    let error := error_of prev_c c in
    let rows :=
      data
      ++ [RegulaFalsi.mk_row i a b c (option_map (fun _ => error) prev_c)
            (f a) (f b) (f c) (f a * f c)
            (RegulaFalsi.remarks_of (f c) error tolerance i max_iter)] in
    RegulaFalsi.regula_falsi_loop f tolerance max_iter (S n) i a b prev_c last
                                  data
    = if abs (f b - f a) <? 1e-10 then Ok None
      else if found (f c) prev_c error tolerance
           then Ok (Some (RegulaFalsi.mk_result c rows Converged))
           else RegulaFalsi.regula_falsi_loop f tolerance max_iter n (S i)
                  (fst (Steps.falsi_narrowed f a b))
                  (snd (Steps.falsi_narrowed f a b))
                  (Some c) (Some (c, f c)) rows.
Proof.
  intros max_iter n i a b prev_c last data c err rows.
  subst rows err c. cbn [RegulaFalsi.regula_falsi_loop].
  unfold Steps.falsi_narrowed, Steps.crossing. cbn [fst snd].
  destruct (abs (f b - f a) <? 1e-10); [reflexivity |].
  destruct (found _ prev_c _ tolerance); [reflexivity |].
  destruct (f a * f _ <? 0); reflexivity.
Qed.

(** What the loop returns after at least one pass. *)
Lemma regula_falsi_loop_shape :
  forall (max_iter n i : nat) (a b : float) (prev_c : option float)
         (last : option (float * float)) (data0 : list RegulaFalsi.row),
  exists o,
    RegulaFalsi.regula_falsi_loop f tolerance max_iter (S n) i a b prev_c last
                                  data0 = Ok o
    /\ match o with
       | Some r =>
         exists init l a' b' prev',
           RegulaFalsi.data r = data0 ++ init ++ [l]
           /\ Steps.falsi_steps f tolerance i a b prev_c init a' b' prev'
           /\ Steps.falsi_row f (i + length init) a' b' prev' l
           /\ RegulaFalsi.root r = RegulaFalsi.xr l
           /\ (length init < S n)%nat
           /\ found (f (RegulaFalsi.root r)) prev'
                    (error_of prev' (RegulaFalsi.root r)) tolerance
              = match RegulaFalsi.how r with
                | Converged => true
                | MaxIterationsReached => false
                end
           /\ (RegulaFalsi.how r = MaxIterationsReached ->
               S (length init) = S n)
       | None =>
         exists rows a' b' prev',
           Steps.falsi_steps f tolerance i a b prev_c rows a' b' prev'
           /\ (abs (f b' - f a') <? 1e-10) = true
           /\ (length rows < S n)%nat
       end.
Proof.
  intros max_iter n. induction n as [| n IH]; intros i a b prev_c last data0;
    rewrite regula_falsi_loop_pass;
    set (c := Steps.crossing f (a, b));
    set (row := RegulaFalsi.mk_row _ _ _ _ _ _ _ _ _ _);
    destruct (abs (f b - f a) <? 1e-10) eqn:Hguard.
  1, 3: exists None; split; [reflexivity |];
        exists [], a, b, prev_c; cbn; repeat split; [assumption | lia].
  all: assert (Hrow : Steps.falsi_row f i a b prev_c row)
         by (unfold Steps.falsi_row; fold c; repeat split; assumption).
  all: destruct (found (f c) prev_c (error_of prev_c c) tolerance) eqn:Hstop.
  1, 3: exists (Some (RegulaFalsi.mk_result c (data0 ++ [row]) Converged));
        split; [reflexivity |];
        exists [], row, a, b, prev_c; cbn [length app RegulaFalsi.data
          RegulaFalsi.root RegulaFalsi.how Steps.falsi_steps];
        rewrite Nat.add_0_r;
        repeat split; try assumption; try lia; discriminate.
  - cbn [RegulaFalsi.regula_falsi_loop].
    exists (Some (RegulaFalsi.mk_result c (data0 ++ [row])
                                        MaxIterationsReached)).
    split; [reflexivity |].
    exists [], row, a, b, prev_c.
    cbn [length app RegulaFalsi.data RegulaFalsi.root RegulaFalsi.how
         Steps.falsi_steps].
    rewrite Nat.add_0_r. repeat split; try assumption; lia.
  - destruct (IH (S i) (fst (Steps.falsi_narrowed f a b))
                 (snd (Steps.falsi_narrowed f a b)) (Some c) (Some (c, f c))
                 (data0 ++ [row])) as (o & Hrun & Hshape).
    exists o. split; [exact Hrun |].
    destruct o as [r |].
    + destruct Hshape
        as (init & l & a' & b' & prev' & Hdata & Hsteps & Hl & Hroot & Hlen
            & Hhow & Hmax).
      exists (row :: init), l, a', b', prev'.
      split; [rewrite Hdata, <- app_assoc; reflexivity |].
      split; [cbn [Steps.falsi_steps]; fold c; auto |].
      split; [cbn [length]; now rewrite Nat.add_succ_r |].
      split; [exact Hroot |].
      split; [cbn [length]; lia |].
      split; [exact Hhow |].
      intro H. cbn [length]. now rewrite (Hmax H).
    + destruct Hshape as (rows & a' & b' & prev' & Hsteps & Hnear & Hlen).
      exists (row :: rows), a', b', prev'.
      split; [cbn [Steps.falsi_steps]; fold c; auto |].
      split; [exact Hnear | cbn [length]; lia].
Qed.

End RegulaFalsiFacts.

(** On an interval [(a, b)], with [max_iter >= 1], regula falsi returns.
    When it reports a root, its trace holds one record per pass; every pass
    found the guard [|f(b) - f(a)| < 1e-10] false, computed
    [c = a - f(a) * (b - a) / (f(b) - f(a))] and, unless it was the last,
    failed the stopping test and continued on [[a, c]] when
    [f(a) * f(c) < 0] and on [[c, b]] otherwise; the root is the point [c]
    of the last pass, which meets the stopping test exactly when the search
    ended as converged, and there are [max_iter] passes otherwise.  When it
    reports nothing, some pass after fewer than [max_iter] others found
    [|f(b) - f(a)| < 1e-10] on its interval, and the records of the earlier
    passes are dropped. *)
Theorem regula_falsi_interval_passes :
  forall (f : float -> float) (tolerance : float) (max_iter : nat)
         (a b : float),
    (1 <= max_iter)%nat ->
    exists o,
      RegulaFalsi.regula_falsi_interval f tolerance max_iter (a, b) = Ok o
      /\ match o with
         | Some r =>
           exists init l a' b' prev',
             RegulaFalsi.data r = init ++ [l]
             /\ Steps.falsi_steps f tolerance 0 a b None init a' b' prev'
             /\ Steps.falsi_row f (length init) a' b' prev' l
             /\ RegulaFalsi.root r = RegulaFalsi.xr l
             /\ (length (RegulaFalsi.data r) <= max_iter)%nat
             /\ found (f (RegulaFalsi.root r)) prev'
                      (error_of prev' (RegulaFalsi.root r)) tolerance
                = match RegulaFalsi.how r with
                  | Converged => true
                  | MaxIterationsReached => false
                  end
             /\ (RegulaFalsi.how r = MaxIterationsReached ->
                 length (RegulaFalsi.data r) = max_iter)
         | None =>
           exists rows a' b' prev',
             Steps.falsi_steps f tolerance 0 a b None rows a' b' prev'
             /\ (abs (f b' - f a') <? 1e-10) = true
             /\ (length rows < max_iter)%nat
         end.
Proof.
  intros f tolerance max_iter a b Hmax.
  destruct max_iter as [| n]; [lia |].
  unfold RegulaFalsi.regula_falsi_interval. cbn [fst snd].
  destruct (regula_falsi_loop_shape f tolerance (S n) n 0 a b None None [])
    as (o & Hrun & Hshape).
  exists o. split; [exact Hrun |].
  destruct o as [r |]; [| exact Hshape].
  destruct Hshape
    as (init & l & a' & b' & prev' & Hdata & Hsteps & Hl & Hroot & Hlen
        & Hhow & Hmax').
  cbn [app Nat.add] in Hdata, Hl.
  exists init, l, a', b', prev'.
  split; [exact Hdata |]. split; [exact Hsteps |]. split; [exact Hl |].
  split; [exact Hroot |].
  split; [rewrite Hdata, length_app; cbn [length]; lia |].
  split; [exact Hhow |].
  intro H. rewrite Hdata, length_app. cbn [length]. specialize (Hmax' H). lia.
Qed.

Lemma regula_falsi_interval_passes_witness :
  (1 <= 100)%nat
  /\ exists o,
      RegulaFalsi.regula_falsi_interval Scenario.shifted 0.0001 100 (1, 3)
      = Ok o
      /\ match o with
         | Some r =>
           exists init l a' b' prev',
             RegulaFalsi.data r = init ++ [l]
             /\ Steps.falsi_steps Scenario.shifted 0.0001 0 1 3 None init
                                  a' b' prev'
             /\ Steps.falsi_row Scenario.shifted (length init) a' b' prev' l
             /\ RegulaFalsi.root r = RegulaFalsi.xr l
             /\ (length (RegulaFalsi.data r) <= 100)%nat
             /\ found (Scenario.shifted (RegulaFalsi.root r)) prev'
                      (error_of prev' (RegulaFalsi.root r)) 0.0001
                = match RegulaFalsi.how r with
                  | Converged => true
                  | MaxIterationsReached => false
                  end
             /\ (RegulaFalsi.how r = MaxIterationsReached ->
                 length (RegulaFalsi.data r) = 100%nat)
         | None =>
           exists rows a' b' prev',
             Steps.falsi_steps Scenario.shifted 0.0001 0 1 3 None rows
                               a' b' prev'
             /\ (abs (Scenario.shifted b' - Scenario.shifted a') <? 1e-10)
                = true
             /\ (length rows < 100)%nat
         end.
Proof.
  split; [lia | apply regula_falsi_interval_passes; lia].
Defined.

(** ** The remarks of a bisection trace *)

Lemma bisection_loop_remarks :
  forall (f : float -> float) (tolerance : float) (max_iter n i : nat)
         (a b : float) (prev_c : option float)
         (last : option (float * float)) (data0 : list Bisection.row),
    (i + S n = max_iter)%nat ->
    exists r init l,
      Bisection.bisection_loop f tolerance max_iter (S n) i a b prev_c last
                               data0 = Ok r
      /\ Bisection.data r = data0 ++ init ++ [l]
      /\ Forall (fun row => Bisection.Remarks row = EmptyString) init
      /\ Bisection.Remarks l
         = match Bisection.how r with
           | Converged =>
             if abs (f (Bisection.root r)) <? tolerance
             then "Converged by function value"%string
             else "Converged by error tolerance"%string
           | MaxIterationsReached => "Max iterations reached"%string
           end.
Proof.
  intros f tolerance max_iter n.
  induction n as [| n IH]; intros i a b prev_c last data0 Hi;
    rewrite bisection_loop_pass;
    set (c := (a + b) / 2);
    set (row := Bisection.mk_row _ _ _ _ _ _ _ _ _);
    destruct (found (f c) prev_c (error_of prev_c c) tolerance) eqn:Hstop.
  1, 3: exists (Bisection.mk_result c (data0 ++ [row]) Converged), [], row;
        split; [reflexivity |]; split; [reflexivity |];
        split; [constructor |];
        cbn; unfold found in Hstop; unfold Bisection.remarks_of; fold c;
        destruct (abs (f c) <? tolerance); [reflexivity |];
        cbn [orb] in Hstop; rewrite Hstop; reflexivity.
  - cbn [Bisection.bisection_loop].
    exists (Bisection.mk_result c (data0 ++ [row]) MaxIterationsReached),
           [], row.
    split; [reflexivity |]. split; [reflexivity |]. split; [constructor |].
    cbn. unfold found in Hstop. unfold Bisection.remarks_of. fold c.
    apply orb_false_iff in Hstop as [-> ->].
    replace (i =? max_iter - 1)%nat with true
      by (symmetry; apply Nat.eqb_eq; lia).
    reflexivity.
  - destruct (IH (S i) (fst (Trace.narrowed f a b))
                 (snd (Trace.narrowed f a b)) (Some c) (Some (c, f c))
                 (data0 ++ [row]) ltac:(lia))
      as (r & init & l & Hrun & Hdata & Hempty & Hl).
    exists r, (row :: init), l.
    split; [exact Hrun |].
    split; [rewrite Hdata, <- app_assoc; reflexivity |].
    split; [| exact Hl].
    constructor; [| exact Hempty].
    cbn. unfold found in Hstop. unfold Bisection.remarks_of. fold c.
    apply orb_false_iff in Hstop as [-> ->].
    replace (i =? max_iter - 1)%nat with false
      by (symmetry; apply Nat.eqb_neq; lia).
    reflexivity.
Qed.

(** In the trace of bisection on an interval ([max_iter >= 1]) every record
    but the last has empty remarks, and the last one says how the search
    ended: "Converged by function value" when [|f(root)| < tolerance],
    "Converged by error tolerance" when it converged otherwise, and
    "Max iterations reached" when the passes ran out. *)
Theorem bisection_final_remarks :
  forall (f : float -> float) (tolerance : float) (max_iter : nat)
         (a b : float),
    (1 <= max_iter)%nat ->
    exists r init l,
      Bisection.bisection_interval f tolerance max_iter (a, b) = Ok r
      /\ Bisection.data r = init ++ [l]
      /\ Forall (fun row => Bisection.Remarks row = EmptyString) init
      /\ Bisection.Remarks l
         = match Bisection.how r with
           | Converged =>
             if abs (f (Bisection.root r)) <? tolerance
             then "Converged by function value"%string
             else "Converged by error tolerance"%string
           | MaxIterationsReached => "Max iterations reached"%string
           end.
Proof.
  intros f tolerance max_iter a b Hmax.
  destruct max_iter as [| n]; [lia |].
  unfold Bisection.bisection_interval. cbn [fst snd].
  destruct (bisection_loop_remarks f tolerance (S n) n 0 a b None None []
                                   ltac:(lia))
    as (r & init & l & Hrun & Hdata & Hempty & Hl).
  exists r, init, l. auto.
Qed.

Lemma bisection_final_remarks_witness :
  (1 <= 100)%nat
  /\ exists r init l,
      Bisection.bisection_interval Scenario.shifted 0.0001 100 (1, 3) = Ok r
      /\ Bisection.data r = init ++ [l]
      /\ Forall (fun row => Bisection.Remarks row = EmptyString) init
      /\ Bisection.Remarks l
         = match Bisection.how r with
           | Converged =>
             if abs (Scenario.shifted (Bisection.root r)) <? 0.0001
             then "Converged by function value"%string
             else "Converged by error tolerance"%string
           | MaxIterationsReached => "Max iterations reached"%string
           end.
Proof.
  split; [lia | apply bisection_final_remarks; lia].
Defined.

(** ** The outcomes of Newton-Raphson and secant *)


Section OpenMethodFacts.

Variables f f' : float -> float.
Variable tolerance : float.



End OpenMethodFacts.



(** ** The incremental method *)

Lemma incremental_walk_invariant :
  forall (f : float -> float) (x_max step_size tolerance : float)
         (max_iter fuel : nat) (x : float)
         (all_iterations result : list (float * list Incremental.row)),
    Forall (Steps.walk_entry f x_max step_size tolerance max_iter)
           all_iterations ->
    Incremental.incremental_walk f x_max step_size tolerance max_iter fuel x
                                 all_iterations = Some result ->
    Forall (Steps.walk_entry f x_max step_size tolerance max_iter) result.
Proof.
  intros f x_max step_size tolerance max_iter fuel.
  induction fuel as [| fuel IH]; intros x all_iterations result Hall;
    cbn [Incremental.incremental_walk]; [discriminate |].
  destruct (x <=? x_max) eqn:Hx;
    [| intro H; inversion H; subst; exact Hall].
  destruct (abs (f x) <? tolerance) eqn:Hroot.
  - apply IH. apply Forall_app. split; [exact Hall |].
    constructor; [left; split; [reflexivity | exact Hroot] | constructor].
  - apply IH.
    destruct (x + step_size <=? x_max) eqn:Hnext; [| exact Hall].
    destruct (f x * f (x + step_size) <? 0) eqn:Hsign; [| exact Hall].
    apply Forall_app. split; [exact Hall |].
    constructor; [right; exists x; auto 6 | constructor].
Qed.

(** Every entry the incremental method returns is a sample [x] with
    [|f(x)| < tolerance] and an empty trace, or the refinement of a bracket
    [[x, x + step_size]] that lies in the range, whose left end is not a
    root within tolerance and on which [f(x) * f(x + step_size) < 0]. *)
Theorem incremental_method_entries :
  forall (f : float -> float) (x_min x_max step_size tolerance : float)
         (max_iter fuel : nat) (result : list (float * list Incremental.row)),
    Incremental.incremental_method f x_min x_max step_size tolerance max_iter
                                   fuel = Some result ->
    Forall (Steps.walk_entry f x_max step_size tolerance max_iter) result.
Proof.
  intros f x_min x_max step_size tolerance max_iter fuel result.
  unfold Incremental.incremental_method.
  apply incremental_walk_invariant. constructor.
Qed.

Lemma incremental_method_entries_witness :
  exists result,
    Incremental.incremental_method Scenario.shifted 1 3 1.5 0.0001 100 10
    = Some result
    /\ length result = 1%nat
    /\ Forall (Steps.walk_entry Scenario.shifted 3 1.5 0.0001 100) result.
Proof.
  destruct (Incremental.incremental_method Scenario.shifted 1 3 1.5 0.0001
                                           100 10) as [result |] eqn:Hrun.
  - exists result. split; [reflexivity |].
    split.
    + assert (Hlen : option_map (@length _)
                       (Incremental.incremental_method Scenario.shifted 1 3 1.5
                                                       0.0001 100 10)
                     = Some 1%nat) by (vm_compute; reflexivity).
      rewrite Hrun in Hlen. cbn in Hlen. congruence.
    + exact (incremental_method_entries Scenario.shifted 1 3 1.5 0.0001 100 10
                                        result Hrun).
  - exfalso.
    assert (Hsome : Incremental.incremental_method Scenario.shifted 1 3 1.5
                                                   0.0001 100 10 <> None)
      by (vm_compute; discriminate).
    exact (Hsome Hrun).
Defined.




(** ** [parse_function] and the previous session *)

Section SessionFacts.

Import Compiler ParseFunction.

Variable L : library.

Let state : Type := session (Fn L).

Lemma text_only_ret : forall (A : Type) (a : A), Steps.text_only (@ret state A a).
Proof. intros A a s1 s2 H. split; [reflexivity | exact H]. Qed.

Lemma text_only_lift :
  forall (A : Type) (m : exc A), Steps.text_only (@lift state A m).
Proof. intros A m s1 s2 H. split; [reflexivity | exact H]. Qed.

Lemma text_only_read : Steps.text_only (@read state string function_str).
Proof. intros s1 s2 H. cbn. now rewrite H. Qed.

Lemma resets_assign_text :
  forall t : string, Steps.resets (assign (set_function_str L t)).
Proof. intros t s1 s2. split; reflexivity. Qed.

Lemma resets_text_only :
  forall (A : Type) (m : action state A), Steps.resets m -> Steps.text_only m.
Proof. intros A m Hm s1 s2 _. apply Hm. Qed.

Lemma text_only_bind :
  forall (A B : Type) (m : action state A) (k : A -> action state B),
    Steps.text_only m -> (forall a, Steps.text_only (k a)) ->
    Steps.text_only (seq_bind m k).
Proof.
  intros A B m k Hm Hk s1 s2 H. unfold seq_bind.
  destruct (Hm s1 s2 H) as [Hout Htext].
  destruct (m s1) as [[a1 | e1] s1'], (m s2) as [[a2 | e2] s2'];
    cbn [fst snd] in *; try discriminate.
  - inversion Hout; subst. now apply Hk.
  - inversion Hout; subst. split; [reflexivity | assumption].
Qed.

Lemma resets_bind :
  forall (A B : Type) (m : action state A) (k : A -> action state B),
    Steps.resets m -> (forall a, Steps.text_only (k a)) ->
    Steps.resets (seq_bind m k).
Proof.
  intros A B m k Hm Hk s1 s2. unfold seq_bind.
  destruct (Hm s1 s2) as [Hout Htext].
  destruct (m s1) as [[a1 | e1] s1'], (m s2) as [[a2 | e2] s2'];
    cbn [fst snd] in *; try discriminate.
  - inversion Hout; subst. now apply Hk.
  - inversion Hout; subst. split; [reflexivity | assumption].
Qed.

Lemma text_only_if :
  forall (A : Type) (c : bool) (m1 m2 : action state A),
    Steps.text_only m1 -> Steps.text_only m2 ->
    Steps.text_only (if c then m1 else m2).
Proof. intros A c m1 m2 H1 H2. destruct c; assumption. Qed.

Lemma text_only_assign_text :
  forall t : string, Steps.text_only (assign (set_function_str L t)).
Proof. intro t. apply resets_text_only, resets_assign_text. Qed.

Create HintDb text_only discriminated.
Hint Resolve text_only_ret text_only_lift text_only_read text_only_if
     text_only_assign_text : text_only.

Ltac text_only_steps :=
  repeat (first [ apply text_only_bind; [| intro ]
                | apply text_only_if
                | solve [ auto with text_only ] ]).

Lemma text_only_close_exp :
  forall caret opening : string, Steps.text_only (close_exp L caret opening).
Proof. intros caret opening. unfold close_exp. text_only_steps. Qed.

(** The rewriting starts by overwriting the text, so that its outcome and the
    text it leaves depend on the input alone. *)
Lemma resets_rewrite_text :
  forall input_str : string, Steps.resets (rewrite_text L input_str).
Proof.
  intro input_str. unfold rewrite_text.
  apply resets_bind; [apply resets_assign_text | intro].
  pose proof text_only_close_exp. text_only_steps; auto.
Qed.

End SessionFacts.

(** Whether [parse_function] succeeds on a text does not depend on the
    session it is called in, and when it succeeds the session it leaves
    ([function_str], [function] and [derivative]) is the same whatever was
    there before: nothing of the previous function survives a successful
    compilation. *)
Theorem parse_function_forgets_session :
  forall (L : Compiler.library) (s1 s2 : Compiler.session (Compiler.Fn L))
         (entry : string),
    fst (ParseFunction.parse_function L s1 entry)
    = fst (ParseFunction.parse_function L s2 entry)
    /\ (fst (ParseFunction.parse_function L s1 entry) = true ->
        snd (ParseFunction.parse_function L s1 entry)
        = snd (ParseFunction.parse_function L s2 entry)).
Proof.
  intros L s1 s2 entry. unfold ParseFunction.parse_function.
  destruct (negb _); [cbn; split; [reflexivity | discriminate] |].
  unfold ParseFunction.compile, Compiler.seq_bind.
  destruct (resets_rewrite_text L (Compiler.strip L entry) s1 s2)
    as [Hout Htext].
  destruct (ParseFunction.rewrite_text L (Compiler.strip L entry) s1)
    as [[u1 | e1] t1],
           (ParseFunction.rewrite_text L (Compiler.strip L entry) s2)
    as [[u2 | e2] t2];
    cbn [fst snd] in Hout, Htext; try discriminate;
    [| cbn; split; [reflexivity | discriminate]].
  unfold ParseFunction.install, Compiler.seq_bind, Compiler.read,
    Compiler.lift, Compiler.assign, Compiler.ret.
  rewrite Htext.
  destruct (Compiler.eval L (Compiler.function_str t2)) as [e | err];
    [| cbn; split; [reflexivity | discriminate]].
  destruct (Compiler.lambdify L e) as [fn | err];
    [| cbn; split; [reflexivity | discriminate]].
  destruct (Compiler.diff L e) as [d | err];
    [| cbn; split; [reflexivity | discriminate]].
  destruct (Compiler.lambdify L d) as [dfn | err];
    [| cbn; split; [reflexivity | discriminate]].
  cbn. split; [reflexivity |]. intros _.
  unfold ParseFunction.set_derivative, ParseFunction.set_function. cbn.
  now rewrite Htext.
Qed.

Lemma parse_function_forgets_session_witness :
  fst (ParseFunction.parse_function Scenario.toy_library Compiler.initial
                                    "f(x) = x") = true
  /\ snd (ParseFunction.parse_function Scenario.toy_library Compiler.initial
                                       "f(x) = x")
     = snd (ParseFunction.parse_function Scenario.toy_library
              (Compiler.mk_session "[x]" (Some "[x]"%string) None)
              "f(x) = x").
Proof.
  destruct (parse_function_forgets_session Scenario.toy_library
              Compiler.initial
              (Compiler.mk_session "[x]" (Some "[x]"%string) None)
              "f(x) = x") as [_ Hsame].
  split; [reflexivity | apply Hsame; reflexivity].
Defined.

(** ** Samples where the function is undefined *)

Lemma nonpositive_product_numbers :
  forall u v : float,
    (u * v <=? 0) = true -> is_nan u = false /\ is_nan v = false.
Proof.
  intros u v H. unfold is_nan.
  rewrite FloatAxioms.leb_spec, mul_spec in H.
  rewrite !FloatAxioms.eqb_spec.
  assert (Hrefl : forall x : spec_float, x <> S754_nan -> SFeqb x x = true).
  { intros [s | [|] | | [|] m e] Hx; try reflexivity; try (now destruct Hx);
      unfold SFeqb, SFcompare; rewrite Z.compare_refl;
      rewrite Pos.compare_cont_refl; reflexivity. }
  destruct (Prim2SF u) as [su | su | | su mu eu] eqn:Eu;
    destruct (Prim2SF v) as [sv | sv | | sv mv ev] eqn:Ev;
    try discriminate H;
    split; apply negb_false_iff, Hrefl; discriminate.
Qed.

(** The scanner never returns an interval with an end point at which [f] is
    NaN (the value numpy gives where the function is undefined): such a
    sample is passed over without notice. *)
Theorem scanner_skips_undefined :
  forall (f : float -> float) (lo hi : float) (n : nat) (a b : float),
    In (a, b) (find_sign_change_intervals f lo hi n) ->
    is_nan (f a) = false /\ is_nan (f b) = false.
Proof.
  intros f lo hi n a b Hin. unfold find_sign_change_intervals in Hin.
  rewrite scan_filter, linspace_length in Hin.
  apply in_map_iff in Hin as [i [Hab Hi]].
  apply filter_In in Hi as [Hi Htest]. apply in_seq in Hi.
  inversion Hab; subst a b.
  rewrite !getitem_map in Htest by (rewrite linspace_length; lia).
  now apply nonpositive_product_numbers.
Qed.

Lemma scanner_skips_undefined_witness :
  In (-1, 0) (find_sign_change_intervals Scenario.identity (-1) 98 100)
  /\ is_nan (Scenario.identity (-1)) = false
  /\ is_nan (Scenario.identity 0) = false.
Proof.
  assert (Hin : In (-1, 0)
                   (find_sign_change_intervals Scenario.identity (-1) 98 100))
    by (vm_compute; left; reflexivity).
  split; [exact Hin |].
  exact (scanner_skips_undefined Scenario.identity (-1) 98 100 (-1) 0 Hin).
Defined.

(** ** The remarks of a regula falsi trace *)

Lemma regula_falsi_loop_remarks :
  forall (f : float -> float) (tolerance : float) (max_iter n i : nat)
         (a b : float) (prev_c : option float)
         (last : option (float * float)) (data0 : list RegulaFalsi.row),
    (i + S n = max_iter)%nat ->
    exists o,
      RegulaFalsi.regula_falsi_loop f tolerance max_iter (S n) i a b prev_c
                                    last data0 = Ok o
      /\ match o with
         | None => True
         | Some r =>
           exists init l,
             RegulaFalsi.data r = data0 ++ init ++ [l]
             /\ Forall (fun row => RegulaFalsi.Remarks row = EmptyString) init
             /\ RegulaFalsi.Remarks l
                = match RegulaFalsi.how r with
                  | Converged =>
                    if abs (f (RegulaFalsi.root r)) <? tolerance
                    then "Converged by function value"%string
                    else "Converged by error tolerance"%string
                  | MaxIterationsReached => "Max iterations reached"%string
                  end
         end.
Proof.
  intros f tolerance max_iter n.
  assert (Herr : forall prev_c c,
             error_below prev_c (error_of prev_c c) tolerance
             = (error_of prev_c c <? tolerance)).
  { intros [p |] c; [reflexivity |]. cbn. now rewrite infinity_not_below. }
  induction n as [| n IH]; intros i a b prev_c last data0 Hi;
    rewrite regula_falsi_loop_pass;
    set (c := Steps.crossing f (a, b));
    set (row := RegulaFalsi.mk_row _ _ _ _ _ _ _ _ _ _);
    destruct (abs (f b - f a) <? 1e-10).
  1, 3: exists None; split; [reflexivity | exact I].
  all: destruct (found (f c) prev_c (error_of prev_c c) tolerance) eqn:Hstop.
  1, 3: exists (Some (RegulaFalsi.mk_result c (data0 ++ [row]) Converged));
        split; [reflexivity |]; exists [], row;
        split; [reflexivity |]; split; [constructor |];
        subst row; cbn [RegulaFalsi.Remarks RegulaFalsi.how RegulaFalsi.root];
        unfold found in Hstop; unfold RegulaFalsi.remarks_of;
        destruct (abs (f c) <? tolerance); [reflexivity |];
        cbn [orb] in Hstop; rewrite Herr in Hstop; rewrite Hstop; reflexivity.
  - cbn [RegulaFalsi.regula_falsi_loop].
    exists (Some (RegulaFalsi.mk_result c (data0 ++ [row])
                                        MaxIterationsReached)).
    split; [reflexivity |].
    exists [], row. split; [reflexivity |]. split; [constructor |].
    subst row. cbn [RegulaFalsi.Remarks RegulaFalsi.how RegulaFalsi.root].
    unfold found in Hstop. unfold RegulaFalsi.remarks_of.
    apply orb_false_iff in Hstop as [-> Hstop].
    rewrite Herr in Hstop. rewrite Hstop.
    replace (i =? max_iter - 1)%nat with true
      by (symmetry; apply Nat.eqb_eq; lia).
    reflexivity.
  - destruct (IH (S i) (fst (Steps.falsi_narrowed f a b))
                 (snd (Steps.falsi_narrowed f a b)) (Some c) (Some (c, f c))
                 (data0 ++ [row]) ltac:(lia)) as (o & Hrun & Hshape).
    exists o. split; [exact Hrun |].
    destruct o as [r |]; [| exact I].
    destruct Hshape as (init & l & Hdata & Hempty & Hl).
    exists (row :: init), l.
    split; [rewrite Hdata, <- app_assoc; reflexivity |].
    split; [| exact Hl].
    constructor; [| exact Hempty].
    subst row. cbn [RegulaFalsi.Remarks RegulaFalsi.how RegulaFalsi.root].
    unfold found in Hstop. unfold RegulaFalsi.remarks_of.
    apply orb_false_iff in Hstop as [-> Hstop].
    rewrite Herr in Hstop. rewrite Hstop.
    replace (i =? max_iter - 1)%nat with false
      by (symmetry; apply Nat.eqb_neq; lia).
    reflexivity.
Qed.

(** When regula falsi reports a root for an interval ([max_iter >= 1]),
    every record of its trace but the last has empty remarks, and the last
    one says how the search ended: "Converged by function value" when
    [|f(root)| < tolerance], "Converged by error tolerance" when it
    converged otherwise, and "Max iterations reached" when the passes ran
    out. *)
Theorem regula_falsi_final_remarks :
  forall (f : float -> float) (tolerance : float) (max_iter : nat)
         (a b : float) (r : RegulaFalsi.result),
    (1 <= max_iter)%nat ->
    RegulaFalsi.regula_falsi_interval f tolerance max_iter (a, b)
    = Ok (Some r) ->
    exists init l,
      RegulaFalsi.data r = init ++ [l]
      /\ Forall (fun row => RegulaFalsi.Remarks row = EmptyString) init
      /\ RegulaFalsi.Remarks l
         = match RegulaFalsi.how r with
           | Converged =>
             if abs (f (RegulaFalsi.root r)) <? tolerance
             then "Converged by function value"%string
             else "Converged by error tolerance"%string
           | MaxIterationsReached => "Max iterations reached"%string
           end.
Proof.
  intros f tolerance max_iter a b r Hmax Hrun.
  destruct max_iter as [| n]; [lia |].
  unfold RegulaFalsi.regula_falsi_interval in Hrun. cbn [fst snd] in Hrun.
  destruct (regula_falsi_loop_remarks f tolerance (S n) n 0 a b None None []
                                      ltac:(lia)) as (o & Hrun' & Hshape).
  rewrite Hrun in Hrun'. inversion Hrun'; subst o.
  exact Hshape.
Qed.

Lemma regula_falsi_final_remarks_witness :
  (1 <= 100)%nat
  /\ exists r,
      RegulaFalsi.regula_falsi_interval Scenario.identity 0.0001 100 (-1, 0)
      = Ok (Some r)
      /\ exists init l,
          RegulaFalsi.data r = init ++ [l]
          /\ Forall (fun row => RegulaFalsi.Remarks row = EmptyString) init
          /\ RegulaFalsi.Remarks l
             = match RegulaFalsi.how r with
               | Converged =>
                 if abs (Scenario.identity (RegulaFalsi.root r)) <? 0.0001
                 then "Converged by function value"%string
                 else "Converged by error tolerance"%string
               | MaxIterationsReached => "Max iterations reached"%string
               end.
Proof.
  split; [lia |].
  assert (Hrun : exists r,
             RegulaFalsi.regula_falsi_interval Scenario.identity 0.0001 100
                                               (-1, 0) = Ok (Some r))
    by (eexists; vm_compute; reflexivity).
  destruct Hrun as [r Hrun]. exists r. split; [exact Hrun |].
  exact (regula_falsi_final_remarks Scenario.identity 0.0001 100 (-1) 0 r
                                    ltac:(lia) Hrun).
Defined.

(** * The scanner and the bracketing methods on any compiled function *)

Section CompiledFacts.

Lemma compiled_scanner_elementwise :
  forall (f : float -> float) (lo hi : float) (n : nat),
    Compiled.find_sign_change_intervals (Compiled.Elementwise f) lo hi n
    = Ok (find_sign_change_intervals f lo hi n).
Proof. reflexivity. Qed.

Lemma compiled_scanner_constant :
  forall (c : float) (kind : Compiled.scalar_kind) (lo hi : float) (n : nat),
    Compiled.find_sign_change_intervals (Compiled.Constant c kind) lo hi n
    = if (2 <=? n)%nat then Raise (Compiled.subscript_error kind) else Ok [].
Proof.
  intros c kind lo hi n. unfold Compiled.find_sign_change_intervals.
  cbn [Compiled.call_array]. rewrite linspace_length.
  destruct n as [| [| n]]; reflexivity.
Qed.

Lemma compiled_bisection_elementwise :
  forall (f : float -> float) (lo hi tolerance : float) (max_iter : nat),
    Compiled.bisection_method (Compiled.Elementwise f) lo hi tolerance max_iter
    = Bisection.bisection_method f lo hi tolerance max_iter.
Proof. reflexivity. Qed.

Lemma compiled_regula_falsi_elementwise :
  forall (f : float -> float) (lo hi tolerance : float) (max_iter : nat),
    Compiled.regula_falsi_method (Compiled.Elementwise f) lo hi tolerance
                                 max_iter
    = RegulaFalsi.regula_falsi_method f lo hi tolerance max_iter.
Proof. reflexivity. Qed.

End CompiledFacts.




(** ** Regula falsi from a zero endpoint *)

Section ZeroEndpoint.




End ZeroEndpoint.




(** With [max_iter >= 1], bisection on a compiled function that is
    applied to each sample returns, and reports exactly one root for each
    interval of the scanner, in the scanner's order: the outcome of its
    loop on that interval.  On a constant expression it raises what the
    scanner raises at [y[i-1]], before any loop runs. *)
Theorem bisection_roots_or_subscript_error :
  forall (F : Compiled.function) (x_min x_max tolerance : float)
         (max_iter : nat),
    (1 <= max_iter)%nat ->
    match F with
    | Compiled.Elementwise f =>
      exists results,
        Compiled.bisection_method F x_min x_max tolerance max_iter = Ok results
        /\ Compiled.find_sign_change_intervals F x_min x_max default_num_points
           = Ok (find_sign_change_intervals f x_min x_max default_num_points)
        /\ length results
           = length (find_sign_change_intervals f x_min x_max
                                                default_num_points)
        /\ Forall2
             (fun ab r =>
                Bisection.bisection_interval f tolerance max_iter ab = Ok r)
             (find_sign_change_intervals f x_min x_max default_num_points)
             results
    | Compiled.Constant c kind =>
      Compiled.bisection_method F x_min x_max tolerance max_iter
      = Raise (Compiled.subscript_error kind)
    end.
Proof.
  intros F x_min x_max tolerance max_iter Hmax.
  destruct F as [f | c kind].
  - destruct (bisection_one_root_per_interval f x_min x_max tolerance max_iter
                                              Hmax)
      as (results & Hrun & Hlen & Hall).
    exists results. rewrite compiled_bisection_elementwise.
    split; [exact Hrun |]. split; [apply compiled_scanner_elementwise |].
    split; [exact Hlen | exact Hall].
  - unfold Compiled.bisection_method.
    rewrite compiled_scanner_constant. reflexivity.
Qed.

Lemma bisection_roots_or_subscript_error_witness :
  (1 <= 100)%nat
  /\ (exists results,
         Compiled.bisection_method (Compiled.Elementwise Scenario.shifted)
                                   (-5) 5 0.0001 100 = Ok results
         /\ length results = 2%nat)
  /\ Compiled.bisection_method (Compiled.Constant 5 Compiled.PythonNumber)
                               (-5) 5 0.0001 100
     = Raise TypeError
  /\ Compiled.bisection_method (Compiled.Constant 5 Compiled.NumpyScalar)
                               (-5) 5 0.0001 100
     = Raise IndexError.
Proof.
  assert (Hmax : (1 <= 100)%nat) by lia.
  split; [exact Hmax |].
  split; [| split].
  - destruct (bisection_roots_or_subscript_error
                (Compiled.Elementwise Scenario.shifted) (-5) 5 0.0001 100 Hmax)
      as (results & Hrun & _ & Hlen & _).
    exists results. split; [exact Hrun |].
    rewrite Hlen. vm_compute. reflexivity.
  - exact (bisection_roots_or_subscript_error
             (Compiled.Constant 5 Compiled.PythonNumber) (-5) 5 0.0001 100
             Hmax).
  - exact (bisection_roots_or_subscript_error
             (Compiled.Constant 5 Compiled.NumpyScalar) (-5) 5 0.0001 100
             Hmax).
Defined.

(** With [max_iter >= 1], regula falsi on a compiled function that is
    applied to each sample returns, and reports at most one root for each
    interval of the scanner, in the scanner's order: the root its loop found
    on that interval, or nothing when the loop stopped on a near-zero
    denominator.  On a constant expression it raises what the scanner raises
    at [y[i-1]], before any loop runs. *)
Theorem regula_falsi_roots_or_subscript_error :
  forall (F : Compiled.function) (x_min x_max tolerance : float)
         (max_iter : nat),
    (1 <= max_iter)%nat ->
    match F with
    | Compiled.Elementwise f =>
      exists outcomes,
        Compiled.regula_falsi_method F x_min x_max tolerance max_iter
        = Ok (flat_map Trace.reported outcomes)
        /\ Compiled.find_sign_change_intervals F x_min x_max default_num_points
           = Ok (find_sign_change_intervals f x_min x_max default_num_points)
        /\ (length (flat_map Trace.reported outcomes)
            <= length (find_sign_change_intervals f x_min x_max
                                                  default_num_points))%nat
        /\ Forall2
             (fun ab o =>
                RegulaFalsi.regula_falsi_interval f tolerance max_iter ab
                = Ok o)
             (find_sign_change_intervals f x_min x_max default_num_points)
             outcomes
    | Compiled.Constant c kind =>
      Compiled.regula_falsi_method F x_min x_max tolerance max_iter
      = Raise (Compiled.subscript_error kind)
    end.
Proof.
  intros F x_min x_max tolerance max_iter Hmax.
  destruct F as [f | c kind].
  - destruct (regula_falsi_roots_per_interval f x_min x_max tolerance max_iter
                                              Hmax)
      as (outcomes & Hrun & Hlen & Hall).
    exists outcomes. rewrite compiled_regula_falsi_elementwise.
    split; [exact Hrun |]. split; [apply compiled_scanner_elementwise |].
    split; [exact Hlen | exact Hall].
  - unfold Compiled.regula_falsi_method.
    rewrite compiled_scanner_constant. reflexivity.
Qed.

Lemma regula_falsi_roots_or_subscript_error_witness :
  (1 <= 100)%nat
  /\ (exists outcomes,
         Compiled.regula_falsi_method (Compiled.Elementwise Scenario.shifted)
                                      (-5) 5 0.0001 100
         = Ok (flat_map Trace.reported outcomes)
         /\ length outcomes = 2%nat)
  /\ Compiled.regula_falsi_method (Compiled.Constant 5 Compiled.PythonNumber)
                                  (-5) 5 0.0001 100
     = Raise TypeError
  /\ Compiled.regula_falsi_method (Compiled.Constant 5 Compiled.NumpyScalar)
                                  (-5) 5 0.0001 100
     = Raise IndexError.
Proof.
  assert (Hmax : (1 <= 100)%nat) by lia.
  split; [exact Hmax |].
  split; [| split].
  - destruct (regula_falsi_roots_or_subscript_error
                (Compiled.Elementwise Scenario.shifted) (-5) 5 0.0001 100 Hmax)
      as (outcomes & Hrun & _ & _ & Hall).
    exists outcomes. split; [exact Hrun |].
    rewrite <- (Forall2_length Hall). vm_compute. reflexivity.
  - exact (regula_falsi_roots_or_subscript_error
             (Compiled.Constant 5 Compiled.PythonNumber) (-5) 5 0.0001 100
             Hmax).
  - exact (regula_falsi_roots_or_subscript_error
             (Compiled.Constant 5 Compiled.NumpyScalar) (-5) 5 0.0001 100
             Hmax).
Defined.

(** * Newton-Raphson and secant when the function may raise *)

Section FallibleFacts.

Variables f f' : Fallible.function.
Variable tolerance : float.





End FallibleFacts.




(** Newton-Raphson on [f(x) = x^2] raises [OverflowError] from the guess
    [1e200], where [x**2] overflows, and finds the root from the guess
    [1]. *)
Example newton_overflow_run :
  Fallible.newton_raphson_method
    Cases.square_or_overflow (Fallible.total (fun x => 2 * x)) 1e200 0.0001 100
  = Raise OverflowError
  /\ exists next_x k data,
      Fallible.newton_raphson_method
        Cases.square_or_overflow (Fallible.total (fun x => 2 * x)) 1 0.0001 100
      = Ok (Newton.RootFound next_x k data)
      /\ k = length data.
Proof.
  split; [vm_compute; reflexivity |].
  do 3 eexists. split; vm_compute; reflexivity.
Qed.


(** The secant method on [f(x) = x^2] raises [OverflowError] from the
    guesses [1, 1e200], and stops on a near-zero denominator from the guesses
    [-1, 1]. *)
Example secant_overflow_run :
  Fallible.secant_method Cases.square_or_overflow 1 1e200 0.0001 100
  = Raise OverflowError
  /\ Fallible.secant_method Cases.square_or_overflow (-1) 1 0.0001 100
     = Ok (Secant.DivisionByNearZero 0 []).
Proof.
  split; vm_compute; reflexivity.
Qed.
